(** * Agent.py: the perceive / decide / act pipeline

    A shallow embedding of [Agent.py] and the properties of its stages and
    of [Workflow.run].

    Python objects are modelled by the inductive type [value]; text is a
    sequence of Unicode code points; a computation is a function from the
    state of the world to an outcome (a value or a raised exception) and the
    new state of the world.  The services the program talks to (the news
    endpoint, the completion endpoint, the file system) answer through an
    environment record [Env], whose answers may depend on everything that
    happened before the call. *)

From Stdlib Require Import String Ascii ZArith Lia.
From stdpp Require Import gmap list strings pretty.

Set Warnings "-register-all".

Local Open Scope Z_scope.
Local Open Scope list_scope.

(** ** Text *)

(** A Python [str] is a sequence of Unicode code points. *)
Abbreviation char := N (only parsing).
Abbreviation pystr := (list N) (only parsing).

(** A literal of the source, written in ASCII. *)
Definition lit (s : string) : pystr :=
  List.map N_of_ascii (list_ascii_of_string s).

(** The line feed character, written "\n" in the source. *)
Definition LF : N := 10%N.

(** The characters [str.strip()] removes: those for which [str.isspace] is
    true (CPython's [_Py_ascii_whitespace] table and
    [_PyUnicode_IsWhitespace]). *)
Definition is_space (c : N) : bool :=
  ((9 <=? c) && (c <=? 13) || (28 <=? c) && (c <=? 32)
   || (c =? 133) || (c =? 160) || (c =? 5760)
   || (8192 <=? c) && (c <=? 8202)
   || (c =? 8232) || (c =? 8233) || (c =? 8239) || (c =? 8287)
   || (c =? 12288))%N.

Fixpoint lstrip (s : pystr) : pystr :=
  match s with
  | c :: s' => if is_space c then lstrip s' else s
  | [] => []
  end.

Definition rstrip (s : pystr) : pystr := rev (lstrip (rev s)).

(** [s.strip()] *)
Definition strip (s : pystr) : pystr := rstrip (lstrip s).

(** ** Values and exceptions *)

(** The Python objects that flow through the pipeline: what [json()] can
    return (numbers restricted to integers) and what the stages build from
    it.  A [dict] is kept as the list of its items in insertion order; its
    keys are pairwise different. *)
Inductive value : Type :=
  | VNone
  | VBool (b : bool)
  | VInt (z : Z)
  | VStr (s : pystr)
  | VList (l : list value)
  | VDict (d : list (pystr * value)).

Inductive exn_class : Type :=
  | TypeError
  | AttributeError
  | ValueError
  | NotImplementedError
  | OtherError (name : string).

(** An instance of a subclass of [Exception], with the text [str(e)]
    gives. *)
Record exn : Type := Exn { exn_class_of : exn_class; exn_msg : pystr }.

Inductive Result (A : Type) : Type :=
  | Ok (a : A)
  | Err (e : exn).
Arguments Ok {A} a.
Arguments Err {A} e.

Definition is_ok {A} (r : Result A) : bool :=
  match r with Ok _ => true | Err _ => false end.

(** ** Computations: state and exceptions *)

(** The state reached when an exception is raised is kept: what was printed
    or written before the failure stays printed or written. *)
Definition M (W A : Type) : Type := W -> Result A * W.

Definition ret {W A} (a : A) : M W A := fun w => (Ok a, w).

Definition raise {W A} (e : exn) : M W A := fun w => (Err e, w).

Definition bind {W A B} (m : M W A) (k : A -> M W B) : M W B :=
  fun w =>
    match m w with
    | (Ok a, w') => k a w'
    | (Err e, w') => (Err e, w')
    end.

(** A pure step that may raise. *)
Definition lift {W A} (r : Result A) : M W A := fun w => (r, w).

(** [try: m  except Exception as e: h e] *)
Definition try_except {W A} (m : M W A) (h : exn -> M W A) : M W A :=
  fun w =>
    match m w with
    | (Ok a, w') => (Ok a, w')
    | (Err e, w') => h e w'
    end.

Declare Scope py_scope.
Delimit Scope py_scope with py.
Notation "x <~ m ; k" := (bind m (fun x => k))
  (at level 20, m at level 100, k at level 200) : py_scope.
Notation "m ;> k" := (bind m (fun _ => k))
  (at level 100, k at level 200, right associativity) : py_scope.
Local Open Scope py_scope.

(** ** Built-in operations on values *)

(** [bool(v)], as [not v] and [if v] use it. *)
Definition truthy (v : value) : bool :=
  match v with
  | VNone => false
  | VBool b => b
  | VInt z => negb (z =? 0)
  | VStr s => negb (bool_decide (s = []))
  | VList l => negb (bool_decide (length l = 0%nat))
  | VDict d => negb (bool_decide (length d = 0%nat))
  end.

(** [d.get(key, default)] on the items of a dict. *)
Fixpoint items_get (d : list (pystr * value)) (key : pystr) (default : value)
  : value :=
  match d with
  | [] => default
  | (k, v) :: d' => if bool_decide (k = key) then v else items_get d' key default
  end.

(** [type(v).__name__], as the messages of the built-in errors show it. *)
Definition type_name (v : value) : pystr :=
  match v with
  | VNone => lit "NoneType"
  | VBool _ => lit "bool"
  | VInt _ => lit "int"
  | VStr _ => lit "str"
  | VList _ => lit "list"
  | VDict _ => lit "dict"
  end.

(** The double quote character. *)
Definition QUOTE : N := 34%N.

(** [obj.get(key, default)]: only a dict has the method. *)
Definition py_get (obj : value) (key : pystr) (default : value)
  : Result value :=
  match obj with
  | VDict d => Ok (items_get d key default)
  | _ =>
      Err (Exn AttributeError
             (lit "'" ++ type_name obj ++ lit "' object has no attribute 'get'"))
  end.

(** [len(v)] *)
Definition py_len (v : value) : Result nat :=
  match v with
  | VStr s => Ok (length s)
  | VList l => Ok (length l)
  | VDict d => Ok (length d)
  | _ =>
      Err (Exn TypeError
             (lit "object of type '" ++ type_name v ++ lit "' has no len()"))
  end.

(** The elements [for x in v] visits. *)
Definition py_iter (v : value) : Result (list value) :=
  match v with
  | VStr s => Ok (List.map (fun c => VStr [c]) s)
  | VList l => Ok l
  | VDict d => Ok (List.map (fun kv => VStr (fst kv)) d)
  | _ => Err (Exn TypeError (lit "'" ++ type_name v ++ lit "' object is not iterable"))
  end.

(** [a + b] where [b] is a [str]. *)
Definition py_add_str (a : value) (b : pystr) : Result pystr :=
  match a with
  | VStr s => Ok (s ++ b)
  | VList _ =>
      Err (Exn TypeError
             (lit "can only concatenate list (not " ++ [QUOTE] ++ lit "str"
                ++ [QUOTE] ++ lit ") to list"))
  | _ =>
      Err (Exn TypeError
             (lit "unsupported operand type(s) for +: '" ++ type_name a
                ++ lit "' and 'str'"))
  end.

(** [str(n)] for a natural number, in decimal. *)
Definition str_of_nat (n : nat) : pystr := lit (pretty n).

Section Format.
(** [repr] of a list or a dict, which the program never inspects. *)
Variable repr_container : value -> pystr.

(** What [f"{v}"] inserts: [str(v)]. *)
Definition py_str (v : value) : pystr :=
  match v with
  | VNone => lit "None"
  | VBool true => lit "True"
  | VBool false => lit "False"
  | VInt z => lit (pretty z)
  | VStr s => s
  | VList _ | VDict _ => repr_container v
  end.
End Format.

(** ** The world outside the program *)

(** What the program did to the outside, in the order it did it.  A call is
    recorded when it is issued, whatever its outcome.  The close of a file,
    which leaving the [with] block makes, is not a call of the program and
    is not recorded. *)
Inductive Event : Type :=
  | EPrint (line : pystr)
  | EHttpGet (url q apiKey : value)
  | ECompletion (model prompt : pystr) (max_tokens : Z)
  | EOpen (path : pystr)
  | EWrite (path data : pystr).

(** The part of a [requests] response the program reads: [status_code] and
    the outcome of [json()]. *)
Record Response : Type := { status_code : Z; json : Result value }.

(** The answers of the outside world, each a function of the events so far
    and of the arguments of the call.
    - [requests_get]: [requests.get(url, params={"q": q, "apiKey": key})];
    - [Completion_create]: [openai.Completion.create(...)] followed by
      reading [response.choices[0].text], with [Err] when either step raises;
    - [open_w]: opening a file for writing; [Some e] when it raises [e];
    - [file_write]: one [file.write(data)]; [Some e] when it raises [e];
    - [file_close]: closing a file that has text to flush, as leaving the
      [with] block does; [Some e] when it raises [e];
    - [file_left]: what the file holds after a write or the close raised;
    - [repr_container]: [repr] of a list or a dict. *)
Record Env : Type := {
  requests_get : list Event -> value -> value -> value -> Result Response;
  Completion_create : list Event -> pystr -> pystr -> Z -> Result pystr;
  open_w : list Event -> pystr -> option exn;
  file_write : list Event -> pystr -> pystr -> option exn;
  file_close : list Event -> pystr -> option exn;
  file_left : list Event -> pystr -> pystr;
  repr_container : value -> pystr
}.

(** The outside world: the events so far, the text files by path, and the
    module attribute [openai.api_key]. *)
Record World : Type := {
  trace : list Event;
  files : gmap (list N) (list N);
  openai_api_key : value
}.

Definition log (e : Event) (w : World) : World :=
  {| trace := trace w ++ [e]; files := files w;
     openai_api_key := openai_api_key w |}.

Definition set_file (path data : pystr) (w : World) : World :=
  {| trace := trace w; files := <[path := data]> (files w);
     openai_api_key := openai_api_key w |}.

Definition set_openai_api_key (key : value) (w : World) : World :=
  {| trace := trace w; files := files w; openai_api_key := key |}.

(** The content of a file, empty when there is none. *)
Definition file_content (path : pystr) (w : World) : pystr :=
  default [] (files w !! path).

(** The lines printed so far. *)
Definition stdout (w : World) : list pystr :=
  omap (fun e => match e with EPrint l => Some l | _ => None end) (trace w).

(** The prompts sent to the completion service so far. *)
Definition model_calls (w : World) : list pystr :=
  omap (fun e => match e with ECompletion _ p _ => Some p | _ => None end)
       (trace w).

(** The queries sent to the news endpoint so far. *)
Definition http_calls (w : World) : list Event :=
  List.filter (fun e => match e with EHttpGet _ _ _ => true | _ => false end)
              (trace w).

(** A state on which [print] is defined. *)
Class Console (W : Type) := emit : pystr -> W -> W.

#[export] Instance World_console : Console World :=
  fun line w => log (EPrint line) w.

(** [print(line)] *)
Definition print {W} `{Console W} (line : pystr) : M W unit :=
  fun w => (Ok tt, emit line w).

(** *** Calls to the outside *)

(** [requests.get(url, params={"q": q, "apiKey": key})] *)
Definition http_get (env : Env) (url q key : value) : M World Response :=
  fun w => (requests_get env (trace w) url q key, log (EHttpGet url q key) w).

(** [openai.Completion.create(model=..., prompt=..., max_tokens=...)]
    and [response.choices[0].text] *)
Definition completion_text (env : Env) (model prompt : pystr) (max_tokens : Z)
  : M World pystr :=
  fun w => (Completion_create env (trace w) model prompt max_tokens,
            log (ECompletion model prompt max_tokens) w).

(** [open(path, "w", encoding="utf-8")]: the file is emptied. *)
Definition open_for_writing (env : Env) (path : pystr) : M World unit :=
  fun w =>
    match open_w env (trace w) path with
    | Some e => (Err e, log (EOpen path) w)
    | None => (Ok tt, set_file path [] (log (EOpen path) w))
    end.

(** The text a file object holds between [open] and the close: what was
    written and has not reached the file yet.  Once a write has raised,
    what has reached the file is no longer known. *)
Inductive buffer : Type :=
  | Buffered (pending : pystr)
  | Broken.

(** [file.write(data)] on the file object opened at [path]: the text joins
    the buffer of the file object. *)
Definition write (env : Env) (path data : pystr) : M (World * buffer) unit :=
  fun st =>
    match file_write env (trace (fst st)) path data with
    | Some e => (Err e, (log (EWrite path data) (fst st), Broken))
    | None =>
        (Ok tt,
         (log (EWrite path data) (fst st),
          match snd st with
          | Buffered pending => Buffered (pending ++ data)
          | Broken => Broken
          end))
    end.

(** Closing the file object: the buffered text reaches the file.  With
    nothing buffered there is nothing to do; when the flush raises, or a
    write had raised, the file holds what the outside says. *)
Definition close (env : Env) (path : pystr) (buf : buffer) : M World unit :=
  fun w =>
    match buf with
    | Buffered [] => (Ok tt, w)
    | Buffered pending =>
        match file_close env (trace w) path with
        | Some e => (Err e, set_file path (file_left env (trace w) path) w)
        | None => (Ok tt, set_file path (file_content path w ++ pending) w)
        end
    | Broken =>
        match file_close env (trace w) path with
        | Some e => (Err e, set_file path (file_left env (trace w) path) w)
        | None => (Ok tt, set_file path (file_left env (trace w) path) w)
        end
    end.

(** The body of [with open(path, "w", ...) as file:], run on the file
    object just opened: the file is closed on every way out of the body;
    an exception of the close is the outcome, otherwise the outcome of the
    body is. *)
Definition with_file {A} (env : Env) (path : pystr)
    (body : M (World * buffer) A) : M World A :=
  fun w =>
    match body (w, Buffered []) with
    | (r, (w1, buf)) =>
        match close env path buf w1 with
        | (Ok _, w2) => (r, w2)
        | (Err e, w2) => (Err e, w2)
        end
    end.

(** ** The agents *)

(** *** [class Agent] *)
Module Agent.
Record t : Type := { name : value }.

Definition __init__ (name : value) : t := {| name := name |}.

Definition perceive (self : t) (input_data : value) : Result t :=
  Err (Exn NotImplementedError (lit "Perceive method must be implemented.")).

Definition decide (self : t) : M World value :=
  raise (Exn NotImplementedError (lit "Decide method must be implemented.")).

Definition act (self : t) : M World value :=
  raise (Exn NotImplementedError (lit "Act method must be implemented.")).
End Agent.

(** *** [class InputAgent(Agent)] *)
Module InputAgent.
Record t : Type := { name : value; topic : value }.

Definition __init__ (name : value) : t := {| name := name; topic := VNone |}.

Definition perceive (self : t) (input_data : value) : Result t :=
  Ok {| name := name self; topic := input_data |}.

Definition decide (env : Env) (self : t) : pystr :=
  lit "Proceeding with research on: " ++ py_str (repr_container env) (topic self).

Definition act (env : Env) (self : t) : M World value :=
  let decision := decide env self in
  print decision;>
  ret (topic self).
End InputAgent.

(** *** [class RetrievalAgent(Agent)] *)
Module RetrievalAgent.
Record t : Type :=
  { name : value; api_url : value; api_key : value; topic : value }.

Definition __init__ (name api_url api_key : value) : t :=
  {| name := name; api_url := api_url; api_key := api_key; topic := VNone |}.

Definition perceive (self : t) (topic : value) : Result t :=
  Ok {| name := name self; api_url := api_url self;
        api_key := api_key self; topic := topic |}.

Definition decide (env : Env) (self : t) : M World Response :=
  response <~ http_get env (api_url self) (topic self) (api_key self);
  ret response.

Definition act (env : Env) (self : t) : M World value :=
  response <~ decide env self;
  if status_code response =? 200 then
    body <~ lift (json response);
    articles <~ lift (py_get body (lit "articles") (VList []));
    n <~ lift (py_len articles);
    print (lit "Retrieved " ++ str_of_nat n ++ lit " articles.");>
    ret articles
  else
    print (lit "Failed to retrieve articles.");>
    ret (VList []).
End RetrievalAgent.

(** *** [class SummarizationAgent(Agent)] *)
Module SummarizationAgent.
Record t : Type := { name : value; articles : value }.

Definition __init__ (name : value) : t :=
  {| name := name; articles := VNone |}.

Definition perceive (self : t) (articles : value) : Result t :=
  Ok {| name := name self; articles := articles |}.

Definition no_content : pystr := lit "No content to summarize.".
Definition unavailable : pystr := lit "Summary unavailable.".

Definition prompt_of (env : Env) (content : value) : pystr :=
  lit "Summarize the following article:" ++ [LF; LF]
    ++ py_str (repr_container env) content.

(** The body of the [for article in self.articles] loop, from the
    articles still to visit and the summaries appended so far. *)
Fixpoint summarize (env : Env) (todo : list value) (summaries : list value)
  : M World (list value) :=
  match todo with
  | [] => ret summaries
  | article :: todo' =>
      content <~ lift (py_get article (lit "content") (VStr []));
      if negb (truthy content) then
        summarize env todo' (summaries ++ [VStr no_content])
      else
        let prompt := prompt_of env content in
        summaries' <~
          try_except
            (text <~ completion_text env (lit "text-davinci-003") prompt 100;
             let summary := strip text in
             ret (summaries ++ [VStr summary]))
            (fun e =>
               print (lit "Error summarizing article: " ++ exn_msg e);>
               ret (summaries ++ [VStr unavailable]));
        summarize env todo' summaries'
  end.

Definition decide (env : Env) (self : t) : M World (list value) :=
  todo <~ lift (py_iter (articles self));
  summarize env todo [].

(** [for idx, summary in enumerate(summaries): print(...)] *)
Fixpoint print_summaries (env : Env) (idx : nat) (summaries : list value)
  : M World unit :=
  match summaries with
  | [] => ret tt
  | summary :: rest =>
      print (lit "Summary " ++ str_of_nat (idx + 1) ++ lit ": "
               ++ py_str (repr_container env) summary);>
      print_summaries env (S idx) rest
  end.

Definition act (env : Env) (self : t) : M World value :=
  summaries <~ decide env self;
  print_summaries env 0 summaries;>
  ret (VList summaries).
End SummarizationAgent.

(** *** [class FileStorageAgent(Agent)] *)
Module FileStorageAgent.
Record t : Type := { name : value; summaries : value }.

Definition __init__ (name : value) : t :=
  {| name := name; summaries := VNone |}.

Definition perceive (self : t) (summaries : value) : Result t :=
  Ok {| name := name self; summaries := summaries |}.

Definition path : pystr := lit "research_summaries.txt".

Definition decide (self : t) : pystr :=
  lit "Summaries saved to research_summaries.txt.".

(** [for summary in self.summaries: file.write(summary + "\n\n")] *)
Fixpoint write_all (env : Env) (todo : list value) : M (World * buffer) unit :=
  match todo with
  | [] => ret tt
  | summary :: todo' =>
      data <~ lift (py_add_str summary [LF; LF]);
      write env path data;>
      write_all env todo'
  end.

(** Leaving the [with] block closes the file on every path, and an
    exception raised inside, or by the close, goes on to the caller. *)
Definition act (env : Env) (self : t) : M World value :=
  open_for_writing env path;>
  with_file env path
    (todo <~ lift (py_iter (summaries self));
     write_all env todo);>
  let message := decide self in
  print message;>
  ret (VStr message).
End FileStorageAgent.

(** ** The workflow *)

(** What [Workflow.run] uses of an agent: the two methods it calls, over
    whatever state [W] they act on. *)
Record Stage (W : Type) : Type :=
  { perceive : value -> M W unit; act : M W value }.
Arguments perceive {W} s input_data.
Arguments act {W} s.

(** *** [class Workflow] *)
Module Workflow.
Section Run.
Context {W : Type} `{Console W}.

(** The [for agent in self.agents] loop, from the agents still to run
    and [current_data]. *)
Fixpoint loop (agents : list (Stage W)) (current_data : value)
  : M W value :=
  match agents with
  | [] => ret current_data
  | agent :: agents' =>
      perceive agent current_data;>
      current_data' <~ act agent;
      loop agents' current_data'
  end.

Definition run (agents : list (Stage W)) (input_data : value)
  : M W value :=
  let current_data := input_data in
  _ <~ loop agents current_data;
  print (lit "Workflow completed.");>
  ret VNone.
End Run.
End Workflow.

(** *** Observing a run *)

(** One method call made by [Workflow.run]: the position of the agent in
    the sequence, the argument, and the outcome. *)
Inductive Call : Type :=
  | CPerceive (i : nat) (input_data : value) (r : Result unit)
  | CAct (i : nat) (r : Result value).

Definition call_index (c : Call) : nat :=
  match c with CPerceive i _ _ => i | CAct i _ => i end.

Definition call_failed (c : Call) : bool :=
  match c with CPerceive _ _ r => negb (is_ok r) | CAct _ r => negb (is_ok r) end.

#[export] Instance observed_console {W} `{Console W} : Console (W * list Call) :=
  fun line wl => (emit line (fst wl), snd wl).

(** The agent at position [i], with every call of its methods recorded. *)
Definition observed {W} (i : nat) (s : Stage W) : Stage (W * list Call) :=
  {| perceive input_data := fun wl =>
       let '(r, w') := perceive s input_data (fst wl) in
       (r, (w', snd wl ++ [CPerceive i input_data r]));
     act := fun wl =>
       let '(r, w') := act s (fst wl) in
       (r, (w', snd wl ++ [CAct i r])) |}.

Fixpoint observed_from {W} (i : nat) (agents : list (Stage W))
  : list (Stage (W * list Call)) :=
  match agents with
  | [] => []
  | s :: agents' => observed i s :: observed_from (S i) agents'
  end.

(** The calls of a run over [n] agents numbered from [i], started with
    [current_data], and the outcome of the loop: each agent perceives the
    current data and acts, its result becoming the current data, and the
    first call that raises is the last one. *)
Inductive schedule : nat -> nat -> value -> list Call -> Result value -> Prop :=
  | schedule_done i current_data :
      schedule i 0 current_data [] (Ok current_data)
  | schedule_stage i n current_data current_data' calls r :
      schedule (S i) n current_data' calls r ->
      schedule i (S n) current_data
        (CPerceive i current_data (Ok tt) :: CAct i (Ok current_data') :: calls) r
  | schedule_perceive_raises i n current_data e :
      schedule i (S n) current_data [CPerceive i current_data (Err e)] (Err e)
  | schedule_act_raises i n current_data e :
      schedule i (S n) current_data
        [CPerceive i current_data (Ok tt); CAct i (Err e)] (Err e).

(** ** Objects *)

(** An instance of one of the five classes. *)
Inductive object : Type :=
  | OAgent (a : Agent.t)
  | OInputAgent (a : InputAgent.t)
  | ORetrievalAgent (a : RetrievalAgent.t)
  | OSummarizationAgent (a : SummarizationAgent.t)
  | OFileStorageAgent (a : FileStorageAgent.t).

(** The objects of the program, by address, and the outside world.  The
    list of agents of a workflow holds addresses: an object listed twice is
    one object. *)
Record Store : Type := { heap : list object; world : World }.

#[export] Instance Store_console : Console Store :=
  fun line s => {| heap := heap s; world := emit line (world s) |}.

(** A computation on the outside world, run in the program. *)
Definition in_world {A} (m : M World A) : M Store A :=
  fun s => let '(r, w') := m (world s) in (r, {| heap := heap s; world := w' |}).

(** Creating an object. *)
Definition new (o : object) : M Store nat :=
  fun s => (Ok (length (heap s)), {| heap := heap s ++ [o]; world := world s |}).

(** [o.perceive(input_data)], by the class of [o]. *)
Definition object_perceive (o : object) (input_data : value) : Result object :=
  match o with
  | OAgent a =>
      match Agent.perceive a input_data with Ok a' => Ok (OAgent a') | Err e => Err e end
  | OInputAgent a =>
      match InputAgent.perceive a input_data with
      | Ok a' => Ok (OInputAgent a') | Err e => Err e end
  | ORetrievalAgent a =>
      match RetrievalAgent.perceive a input_data with
      | Ok a' => Ok (ORetrievalAgent a') | Err e => Err e end
  | OSummarizationAgent a =>
      match SummarizationAgent.perceive a input_data with
      | Ok a' => Ok (OSummarizationAgent a') | Err e => Err e end
  | OFileStorageAgent a =>
      match FileStorageAgent.perceive a input_data with
      | Ok a' => Ok (OFileStorageAgent a') | Err e => Err e end
  end.

(** [o.act()], by the class of [o]. *)
Definition object_act (env : Env) (o : object) : M World value :=
  match o with
  | OAgent a => Agent.act a
  | OInputAgent a => InputAgent.act env a
  | ORetrievalAgent a => RetrievalAgent.act env a
  | OSummarizationAgent a => SummarizationAgent.act env a
  | OFileStorageAgent a => FileStorageAgent.act env a
  end.

(** An address always designates an object; the outcome for one that does
    not is an artefact of the model. *)
Definition no_object : exn := Exn (OtherError "ReferenceError") [].

(** The agent at address [l] as [Workflow.run] uses it. *)
Definition stage_at (env : Env) (l : nat) : Stage Store :=
  {| perceive input_data := fun s =>
       match heap s !! l with
       | Some o =>
           match object_perceive o input_data with
           | Ok o' => (Ok tt, {| heap := <[l := o']> (heap s); world := world s |})
           | Err e => (Err e, s)
           end
       | None => (Err no_object, s)
       end;
     act := fun s =>
       match heap s !! l with
       | Some o => in_world (object_act env o) s
       | None => (Err no_object, s)
       end |}.

(** ** The script *)

(** The block under [if __name__ == "__main__":]. *)
Definition main (env : Env) (news_api_key : value) : M Store value :=
  let NEWS_API_URL := VStr (lit "https://newsapi.org/v2/everything") in
  input_agent <~ new (OInputAgent (InputAgent.__init__ (VStr (lit "InputAgent"))));
  retrieval_agent <~
    new (ORetrievalAgent
           (RetrievalAgent.__init__ (VStr (lit "RetrievalAgent"))
              NEWS_API_URL news_api_key));
  summarization_agent <~
    new (OSummarizationAgent
           (SummarizationAgent.__init__ (VStr (lit "SummarizationAgent"))));
  file_storage_agent <~
    new (OFileStorageAgent
           (FileStorageAgent.__init__ (VStr (lit "FileStorageAgent"))));
  let agents :=
    [input_agent; retrieval_agent; summarization_agent; file_storage_agent] in
  let topic := VStr (lit "AI in Healthcare") in
  Workflow.run (List.map (stage_at env) agents) topic.

(** [os.environ.get(key)] *)
Definition environ_get (environ : gmap (list N) (list N)) (key : pystr)
  : value :=
  match environ !! key with
  | Some v => VStr v
  | None => VNone
  end.

(** The module run as a script, in the environment variables [environ]. *)
Definition script (env : Env) (environ : gmap (list N) (list N))
  : M Store value :=
  let openai_api_key := environ_get environ (lit "OPENAI_API_KEY") in
  let news_api_key := environ_get environ (lit "NEWS_API_KEY") in
  if negb (truthy openai_api_key) then
    raise (Exn ValueError
             (lit "The environment variable OPENAI_API_KEY is not set."))
  else if negb (truthy news_api_key) then
    raise (Exn ValueError
             (lit "The environment variable NEWS_API_KEY is not set."))
  else
    in_world (fun w => (Ok tt, set_openai_api_key openai_api_key w));>
    main env news_api_key.

(** ** Vocabulary of the properties *)

(** The world after the query of [decide]. *)
Definition queried (self : RetrievalAgent.t) (w : World) : World :=
  log (EHttpGet (RetrievalAgent.api_url self) (RetrievalAgent.topic self)
         (RetrievalAgent.api_key self)) w.

(** The answer the query of [decide] gets in [w]. *)
Definition answer (env : Env) (self : RetrievalAgent.t) (w : World)
  : Result Response :=
  requests_get env (trace w) (RetrievalAgent.api_url self)
    (RetrievalAgent.topic self) (RetrievalAgent.api_key self).

(** [d.get(key)] on the items of a dict: the value of the field, if any. *)
Fixpoint items_find (d : list (pystr * value)) (key : pystr) : option value :=
  match d with
  | [] => None
  | (k, v) :: d' => if bool_decide (k = key) then Some v else items_find d' key
  end.

(** An outside world that answers the same way whatever happened before. *)
Definition fixed_env (get : Result Response) (complete : pystr -> Result pystr)
    (opening writing : option exn) : Env :=
  {| requests_get := fun _ _ _ _ => get;
     Completion_create := fun _ _ prompt _ => complete prompt;
     open_w := fun _ _ => opening;
     file_write := fun _ _ _ => writing;
     file_close := fun _ _ => None;
     file_left := fun _ _ => [];
     repr_container := fun _ => [] |}.

(** The world before anything happened. *)
Definition world0 : World :=
  {| trace := []; files := ∅; openai_api_key := VNone |}.

(** The program before any object was created. *)
Definition start (w : World) : Store := {| heap := []; world := w |}.

Definition connection_error : exn :=
  Exn (OtherError "ConnectionError") (lit "connection refused").

(** The data flow of [main] with the objects left out: each agent of the
    script acts on what the one before returned. *)
Definition pipeline (env : Env) (news_api_key : value) : M World value :=
  topic <~
    InputAgent.act env
      {| InputAgent.name := VStr (lit "InputAgent");
         InputAgent.topic := VStr (lit "AI in Healthcare") |};
  articles <~
    RetrievalAgent.act env
      {| RetrievalAgent.name := VStr (lit "RetrievalAgent");
         RetrievalAgent.api_url := VStr (lit "https://newsapi.org/v2/everything");
         RetrievalAgent.api_key := news_api_key;
         RetrievalAgent.topic := topic |};
  summaries <~
    SummarizationAgent.act env
      {| SummarizationAgent.name := VStr (lit "SummarizationAgent");
         SummarizationAgent.articles := articles |};
  _ <~
    FileStorageAgent.act env
      {| FileStorageAgent.name := VStr (lit "FileStorageAgent");
         FileStorageAgent.summaries := summaries |};
  print (lit "Workflow completed.");>
  ret VNone.

(** The [content] of an article record, as the loop of [decide] reads it. *)
Definition content_of (article : list (pystr * value)) : value :=
  items_get article (lit "content") (VStr []).

(** The completion model the program asks for. *)
Definition davinci : pystr := lit "text-davinci-003".

(** The call [decide] issues for an article of content [content]. *)
Definition completion_call (env : Env) (content : value) : Event :=
  ECompletion davinci (SummarizationAgent.prompt_of env content) 100.

(** The answer that call gets in [w]. *)
Definition completion_answer (env : Env) (content : value) (w : World)
  : Result pystr :=
  Completion_create env (trace w) davinci
    (SummarizationAgent.prompt_of env content) 100.

(** [summarized env w articles summaries w']: from the world [w], the
    article records yield the summaries, one each and in order, and leave
    the world [w'].  An article without content costs nothing; one with
    content costs one completion call, and a notice when the call raises. *)
Inductive summarized (env : Env)
  : World -> list (list (pystr * value)) -> list value -> World -> Prop :=
  | summarized_nil w : summarized env w [] [] w
  | summarized_no_content w article articles summaries w' :
      truthy (content_of article) = false ->
      summarized env w articles summaries w' ->
      summarized env w (article :: articles)
        (VStr SummarizationAgent.no_content :: summaries) w'
  | summarized_text w article articles summaries w' text :
      truthy (content_of article) = true ->
      completion_answer env (content_of article) w = Ok text ->
      summarized env (log (completion_call env (content_of article)) w)
        articles summaries w' ->
      summarized env w (article :: articles) (VStr (strip text) :: summaries) w'
  | summarized_unavailable w article articles summaries w' e :
      truthy (content_of article) = true ->
      completion_answer env (content_of article) w = Err e ->
      summarized env
        (log (EPrint (lit "Error summarizing article: " ++ exn_msg e))
           (log (completion_call env (content_of article)) w))
        articles summaries w' ->
      summarized env w (article :: articles)
        (VStr SummarizationAgent.unavailable :: summaries) w'.

(** What a summary can be, given the article it comes from. *)
Definition summary_of (article : list (pystr * value)) (summary : value)
  : Prop :=
  if truthy (content_of article) then
    summary = VStr SummarizationAgent.unavailable
    \/ exists text, summary = VStr (strip text)
  else summary = VStr SummarizationAgent.no_content.

(** The articles for which [decide] calls the completion service. *)
Definition with_content (articles : list (list (pystr * value)))
  : list (list (pystr * value)) :=
  List.filter (fun article => truthy (content_of article)) articles.

(** A [SummarizationAgent] that perceived the given article records. *)
Definition summarizer (name : value) (articles : list (list (pystr * value)))
  : SummarizationAgent.t :=
  {| SummarizationAgent.name := name;
     SummarizationAgent.articles := VList (List.map VDict articles) |}.

(** A completion service that answers every prompt with two spaces. *)
Definition blank_env : Env :=
  fixed_env (Err connection_error) (fun _ => Ok (lit "  ")) None None.

(** A completion service that answers every prompt, and a news endpoint
    that does not. *)
Definition quiet_env : Env :=
  fixed_env (Err connection_error) (fun _ => Ok (lit " A summary. ")) None None.

(** A completion service that raises at every call. *)
Definition no_completion_env : Env :=
  fixed_env (Err connection_error)
    (fun _ => Err (Exn (OtherError "RateLimitError") (lit "quota exceeded")))
    None None.

(** An article record with the given content. *)
Definition article_of (content : value) : list (pystr * value) :=
  [(lit "title", VStr (lit "A title")); (lit "content", content)].

(** What the output file holds for the given summaries: each one followed
    by an empty line. *)
Definition entries (summaries : list pystr) : pystr :=
  concat (List.map (fun summary => summary ++ [LF; LF]) summaries).

(** The world after the output file was opened. *)
Definition opened (w : World) : World :=
  set_file FileStorageAgent.path [] (log (EOpen FileStorageAgent.path) w).

(** The calls of [write] for the given summaries, one each. *)
Definition write_calls (summaries : list pystr) : list Event :=
  List.map (fun summary => EWrite FileStorageAgent.path (summary ++ [LF; LF]))
           summaries.

(** The world after those calls: the text is in the buffer of the file
    object, not in the file. *)
Definition after_writes (summaries : list pystr) (w : World) : World :=
  fold_left (fun w e => log e w) (write_calls summaries) w.

(** The world after the buffered text [pending] reached the output
    file. *)
Definition flushed (pending : pystr) (w : World) : World :=
  match pending with
  | [] => w
  | _ =>
      set_file FileStorageAgent.path
        (file_content FileStorageAgent.path w ++ pending) w
  end.

(** The world after the output file was opened, the summaries written and
    the file closed, when nothing raised. *)
Definition stored (summaries : list pystr) (w : World) : World :=
  flushed (entries summaries) (after_writes summaries (opened w)).

(** From [w], where the output file is open, the write of each of the
    summaries goes through: the write of the one at position [k] does not
    raise after the writes of those before it. *)
Definition writes_work (env : Env) (w : World) (summaries : list pystr)
  : Prop :=
  forall k summary,
    summaries !! k = Some summary ->
    file_write env (trace (after_writes (take k summaries) w))
      FileStorageAgent.path (summary ++ [LF; LF])
    = None.

(** In the run of [act] from [w] on the summaries, the outside lets the
    output file be opened, each write go through, and the file be closed
    (with no summary there is nothing to flush at the close). *)
Definition storage_works (env : Env) (w : World) (summaries : list pystr)
  : Prop :=
  open_w env (trace w) FileStorageAgent.path = None
  /\ writes_work env (opened w) summaries
  /\ (summaries = []
      \/ file_close env (trace (after_writes summaries (opened w)))
           FileStorageAgent.path
         = None).

(** An outside world in which opening a file, writing to it and closing
    it never raise. *)
Definition storage_never_fails (env : Env) : Prop :=
  (forall h p, open_w env h p = None)
  /\ (forall h p data, file_write env h p data = None)
  /\ (forall h p, file_close env h p = None).

(** A [FileStorageAgent] that perceived the given summaries. *)
Definition storer (name : value) (summaries : list pystr)
  : FileStorageAgent.t :=
  {| FileStorageAgent.name := name;
     FileStorageAgent.summaries := VList (List.map VStr summaries) |}.

(** A world in which the output file already holds something. *)
Definition world_with_old_file : World :=
  {| trace := [];
     files := {[ FileStorageAgent.path := lit "old contents" ]};
     openai_api_key := VNone |}.

(** The [RetrievalAgent] of the script, after it perceived [topic]. *)
Definition retriever (key topic : value) : RetrievalAgent.t :=
  {| RetrievalAgent.name := VStr (lit "RetrievalAgent");
     RetrievalAgent.api_url := VStr (lit "https://newsapi.org/v2/everything");
     RetrievalAgent.api_key := key;
     RetrievalAgent.topic := topic |}.

(** A news endpoint that always gives the same response; completions and
    storage work. *)
Definition news_env (resp : Response) : Env :=
  fixed_env (Ok resp) (fun _ => Ok (lit " A summary. ")) None None.

(** A response with a decoded body. *)
Definition response_of (status : Z) (body : list (pystr * value)) : Response :=
  {| status_code := status; json := Ok (VDict body) |}.

Definition two_articles : list value :=
  [VDict (article_of (VStr (lit "One."))); VDict (article_of (VStr (lit "Two.")))].

(** The world of the script when the storage agent acts, after a refused
    retrieval. *)
Definition after_refusal (key : value) (w : World) : World :=
  log (EPrint (lit "Failed to retrieve articles."))
    (queried (retriever key (VStr (lit "AI in Healthcare")))
       (log (EPrint (lit "Proceeding with research on: AI in Healthcare")) w)).

(** A news endpoint that answers 404, and an output file that cannot be
    opened. *)
Definition permission_error : exn :=
  Exn (OtherError "PermissionError") (lit "Permission denied").

Definition locked_env : Env :=
  fixed_env (Ok (response_of 404 [])) (fun _ => Ok (lit " A summary. "))
    (Some permission_error) None.

(** The program after the module set [openai.api_key]. *)
Definition with_openai_api_key (key : pystr) (s : Store) : Store :=
  {| heap := heap s; world := set_openai_api_key (VStr key) (world s) |}.

Definition OPENAI_API_KEY : pystr := lit "OPENAI_API_KEY".
Definition NEWS_API_KEY : pystr := lit "NEWS_API_KEY".

(** Both variables set, the first one to the empty string. *)
Definition environ_empty_key : gmap (list N) (list N) :=
  {[ OPENAI_API_KEY := []; NEWS_API_KEY := lit "news-key" ]}.

(** Both variables set to something. *)
Definition environ_both : gmap (list N) (list N) :=
  {[ OPENAI_API_KEY := lit "openai-key"; NEWS_API_KEY := lit "news-key" ]}.

(** A program with an [InputAgent] at address 0 and an instance of the base
    class at address 1. *)
Definition store_with_base_agent : Store :=
  {| heap := [OInputAgent (InputAgent.__init__ (VStr (lit "InputAgent")));
              OAgent (Agent.__init__ (VStr (lit "Agent")))];
     world := world0 |}.

(** *** What a computation may do to the outside *)

Definition is_print (e : Event) : bool :=
  match e with EPrint _ => true | _ => false end.

(** A completion call as the program makes them: the model
    "text-davinci-003" and at most 100 tokens. *)
Definition is_completion (e : Event) : bool :=
  match e with
  | ECompletion model _ max_tokens =>
      bool_decide (model = davinci) && (max_tokens =? 100)
  | _ => false
  end.

(** Opening the output file or writing to it. *)
Definition is_output (e : Event) : bool :=
  match e with
  | EOpen path | EWrite path _ => bool_decide (path = FileStorageAgent.path)
  | _ => false
  end.

(** The files other than the output file are the same. *)
Definition same_other_files (f f' : gmap (list N) (list N)) : Prop :=
  forall p, p <> FileStorageAgent.path -> f' !! p = f !! p.

(** [stays allowed R w w']: from [w] to [w'] only events that are [allowed]
    were added, [openai.api_key] was left alone, and the files are related
    by [R]. *)
Definition stays (allowed : Event -> bool)
    (R : gmap (list N) (list N) -> gmap (list N) (list N) -> Prop)
    (w w' : World) : Prop :=
  exists events,
    trace w' = trace w ++ events
    /\ forallb allowed events = true
    /\ openai_api_key w' = openai_api_key w
    /\ R (files w) (files w').

(** A computation that, from any world, stays within [allowed] and [R],
    whether it returns or raises. *)
Definition confined {A : Type} (allowed : Event -> bool)
    (R : gmap (list N) (list N) -> gmap (list N) (list N) -> Prop)
    (m : M World A) : Prop :=
  forall w, stays allowed R w (snd (m w)).

Definition is_query (e : Event) : bool :=
  match e with EHttpGet _ _ _ => true | _ => false end.

Definition print_or_query (e : Event) : bool := is_print e || is_query e.
Definition print_or_completion (e : Event) : bool := is_print e || is_completion e.
Definition print_or_output (e : Event) : bool := is_print e || is_output e.

(** The query the script sends with the news key [key]. *)
Definition script_query (key : pystr) : Event :=
  EHttpGet (VStr (lit "https://newsapi.org/v2/everything"))
    (VStr (lit "AI in Healthcare")) (VStr key).

(** A news endpoint that answers 200 with a body that is not JSON. *)
Definition garbled_env : Env :=
  fixed_env
    (Ok {| status_code := 200;
           json := Err (Exn (OtherError "JSONDecodeError") (lit "Expecting value")) |})
    (fun _ => Ok (lit " A summary. ")) None None.

(** Two objects of the same class that were constructed with the same
    arguments: they differ at most by what they last perceived. *)
Definition same_config (o o' : object) : Prop :=
  match o, o' with
  | OAgent a, OAgent a' => Agent.name a = Agent.name a'
  | OInputAgent a, OInputAgent a' => InputAgent.name a = InputAgent.name a'
  | ORetrievalAgent a, ORetrievalAgent a' =>
      RetrievalAgent.name a = RetrievalAgent.name a'
      /\ RetrievalAgent.api_url a = RetrievalAgent.api_url a'
      /\ RetrievalAgent.api_key a = RetrievalAgent.api_key a'
  | OSummarizationAgent a, OSummarizationAgent a' =>
      SummarizationAgent.name a = SummarizationAgent.name a'
  | OFileStorageAgent a, OFileStorageAgent a' =>
      FileStorageAgent.name a = FileStorageAgent.name a'
  | _, _ => False
  end.

(** The objects of the script after a run in which the news endpoint
    answered with two articles. *)
Definition heap_after_a_run : list object :=
  [OInputAgent {| InputAgent.name := VStr (lit "InputAgent");
                  InputAgent.topic := VStr (lit "An earlier topic") |};
   ORetrievalAgent {| RetrievalAgent.name := VStr (lit "RetrievalAgent");
                      RetrievalAgent.api_url := VStr (lit "https://newsapi.org/v2/everything");
                      RetrievalAgent.api_key := VStr (lit "news-key");
                      RetrievalAgent.topic := VStr (lit "An earlier topic") |};
   OSummarizationAgent {| SummarizationAgent.name := VStr (lit "SummarizationAgent");
                          SummarizationAgent.articles := VList two_articles |};
   OFileStorageAgent {| FileStorageAgent.name := VStr (lit "FileStorageAgent");
                        FileStorageAgent.summaries := VList [VStr (lit "Old.")] |}].

(** The objects of the script as constructed. *)
Definition heap_as_constructed : list object :=
  [OInputAgent (InputAgent.__init__ (VStr (lit "InputAgent")));
   ORetrievalAgent
     (RetrievalAgent.__init__ (VStr (lit "RetrievalAgent"))
        (VStr (lit "https://newsapi.org/v2/everything")) (VStr (lit "news-key")));
   OSummarizationAgent (SummarizationAgent.__init__ (VStr (lit "SummarizationAgent")));
   OFileStorageAgent (FileStorageAgent.__init__ (VStr (lit "FileStorageAgent")))].

(** A text with no white space at its start nor at its end. *)
Definition no_outer_space (t : pystr) : Prop :=
  (forall c rest, t = c :: rest -> is_space c = false)
  /\ (forall front c, t = front ++ [c] -> is_space c = false).

(** A [SummarizationAgent] that perceived a sequence in which [v] stands
    between article records. *)
Definition summarizer_with (name : value)
    (before : list (list (pystr * value))) (v : value)
    (after : list (list (pystr * value))) : SummarizationAgent.t :=
  {| SummarizationAgent.name := name;
     SummarizationAgent.articles :=
       VList (List.map VDict before ++ v :: List.map VDict after) |}.

(** A file system in which the first write to a file goes through and the
    next one raises. *)
Definition no_space_left : exn :=
  Exn (OtherError "OSError") (lit "No space left on device").

Definition second_write_fails_env : Env :=
  {| requests_get := fun _ _ _ _ => Err connection_error;
     Completion_create := fun _ _ _ _ => Ok (lit " A summary. ");
     open_w := fun _ _ => None;
     file_write := fun h _ _ =>
       if existsb (fun e => match e with EWrite _ _ => true | _ => false end) h
       then Some no_space_left else None;
     file_close := fun _ _ => None;
     file_left := fun _ _ => [];
     repr_container := fun _ => [] |}.

(** A file system in which every write goes through and the close, where
    the text is flushed, raises and leaves nothing in the file. *)
Definition close_fails_env : Env :=
  {| requests_get := fun _ _ _ _ => Err connection_error;
     Completion_create := fun _ _ _ _ => Ok (lit " A summary. ");
     open_w := fun _ _ => None;
     file_write := fun _ _ _ => None;
     file_close := fun _ _ => Some no_space_left;
     file_left := fun _ _ => [];
     repr_container := fun _ => [] |}.

(** A [FileStorageAgent] that perceived a sequence in which [v] stands
    between strings. *)
Definition storer_with (name : value) (before : list pystr) (v : value)
    (after : list value) : FileStorageAgent.t :=
  {| FileStorageAgent.name := name;
     FileStorageAgent.summaries := VList (List.map VStr before ++ v :: after) |}.

(** The label [act] of the summarization agent prints for the summary at
    position [i], counted from 0. *)
Definition summary_line (i : nat) (summary : pystr) : pystr :=
  lit "Summary " ++ str_of_nat (i + 1) ++ lit ": " ++ summary.

(** The world in which the retrieval agent of the script acts. *)
Definition after_input (w : World) : World :=
  log (EPrint (lit "Proceeding with research on: AI in Healthcare")) w.

(** A news endpoint that answers 200 with the given body. *)
Definition body_env (body : value) : Env :=
  fixed_env (Ok {| status_code := 200; json := Ok body |})
    (fun _ => Ok (lit " A summary. ")) None None.

(** A [RetrievalAgent] after it perceived [topic]. *)
Definition retrieving (a : RetrievalAgent.t) (topic : value) : RetrievalAgent.t :=
  {| RetrievalAgent.name := RetrievalAgent.name a;
     RetrievalAgent.api_url := RetrievalAgent.api_url a;
     RetrievalAgent.api_key := RetrievalAgent.api_key a;
     RetrievalAgent.topic := topic |}.

(** A [FileStorageAgent] after it perceived [summaries]. *)
Definition storing (a : FileStorageAgent.t) (summaries : value)
  : FileStorageAgent.t :=
  {| FileStorageAgent.name := FileStorageAgent.name a;
     FileStorageAgent.summaries := summaries |}.

(** A program whose only object is a storage agent. *)
Definition store_with_storage_agent : Store :=
  {| heap := [OFileStorageAgent (FileStorageAgent.__init__ (VStr (lit "FileStorageAgent")))];
     world := world_with_old_file |}.

(** A program whose objects are a retrieval agent and a summarization
    agent. *)
Definition store_with_retrieval_agent : Store :=
  {| heap := [ORetrievalAgent
                (RetrievalAgent.__init__ (VStr (lit "RetrievalAgent"))
                   (VStr (lit "https://newsapi.org/v2/everything"))
                   (VStr (lit "news-key")));
              OSummarizationAgent
                (SummarizationAgent.__init__ (VStr (lit "SummarizationAgent")))];
     world := world0 |}.

(** The world in which the summarization agent of the script acts, after
    [n] articles were retrieved. *)
Definition after_retrieval (key : value) (n : nat) (w : World) : World :=
  log (EPrint (lit "Retrieved " ++ str_of_nat n ++ lit " articles."))
    (queried (retriever key (VStr (lit "AI in Healthcare"))) (after_input w)).


(** * Properties *)

(** ** Computations *)

Lemma bind_ok {W A B} (m : M W A) (k : A -> M W B) w a w' :
  m w = (Ok a, w') -> bind m k w = k a w'.
Proof. unfold bind. now intros ->. Qed.

Lemma bind_err {W A B} (m : M W A) (k : A -> M W B) w e w' :
  m w = (Err e, w') -> bind m k w = (Err e, w').
Proof. unfold bind. now intros ->. Qed.

(** ** [Workflow.run] *)

Section WorkflowFacts.
Context {W : Type} `{Console W}.

(** The observed loop computes what the loop computes, and the calls it
    records follow the schedule. *)
Lemma loop_observed (agents : list (Stage W)) :
  forall i current_data w calls0,
    exists r w' calls,
      Workflow.loop (observed_from i agents) current_data (w, calls0)
        = (r, (w', calls0 ++ calls))
      /\ Workflow.loop agents current_data w = (r, w')
      /\ schedule i (length agents) current_data calls r.
Proof.
  induction agents as [|s agents IH]; intros i v w calls0.
  - exists (Ok v), w, []. cbn. rewrite app_nil_r. repeat split. constructor.
  - cbn [observed_from Workflow.loop length].
    unfold bind at 1 3. cbn [perceive act observed fst snd].
    destruct (perceive s v w) as [[[]|e] w1] eqn:Hp.
    + unfold bind at 1 2. cbn [perceive act observed fst snd].
      destruct (act s w1) as [[v'|e] w2] eqn:Ha.
      * destruct (IH (S i) v' w2 ((calls0 ++ [CPerceive i v (Ok tt)]) ++ [CAct i (Ok v')]))
          as (r & w' & calls & Hobs & Hrun & Hsched).
        exists r, w', (CPerceive i v (Ok tt) :: CAct i (Ok v') :: calls).
        rewrite Hobs, Hrun. repeat split.
        -- now rewrite <- !app_assoc.
        -- now constructor.
      * exists (Err e), w2, [CPerceive i v (Ok tt); CAct i (Err e)].
        repeat split.
        -- now rewrite <- !app_assoc.
        -- constructor.
    + exists (Err e), w1, [CPerceive i v (Err e)]. repeat split. constructor.
Qed.

(** A run that does not raise made two calls per agent, in the order of
    the sequence. *)
Lemma schedule_ok_indices i n current_data calls v :
  schedule i n current_data calls (Ok v) ->
  List.map call_index calls = flat_map (fun k => [k; k]) (seq i n)
  /\ existsb call_failed calls = false.
Proof.
  intros Hs. remember (Ok v) as r eqn:Hr.
  induction Hs as [i v0|i n v0 v1 calls r Hs IH| |]; try discriminate.
  - now split.
  - destruct (IH Hr) as [IHi IHf]. cbn. rewrite IHi. now split.
Qed.

(** A run that raises stops at the call that raised: that call is the last
    one, it raised the exception of the run, and no agent after its own was
    called. *)
Lemma schedule_err_last i n current_data calls e :
  schedule i n current_data calls (Err e) ->
  exists k before failed,
    calls = before ++ [failed]
    /\ call_index failed = k /\ (i <= k < i + n)%nat
    /\ (failed = CPerceive k (match failed with CPerceive _ x _ => x | _ => VNone end) (Err e)
        \/ failed = CAct k (Err e))
    /\ Forall (fun c => (call_index c <= k)%nat /\ call_failed c = false) before.
Proof.
  intros Hs. remember (Err e) as r eqn:Hr.
  induction Hs as [i v0|i n v0 v1 calls r Hs IH|i n v0 e'|i n v0 e']; try discriminate.
  - destruct (IH Hr) as (k & before & failed & -> & Hk & Hrange & Hshape & Hall).
    exists k, (CPerceive i v0 (Ok tt) :: CAct i (Ok v1) :: before), failed.
    repeat split; try assumption; try lia.
    repeat constructor; cbn; try lia. exact Hall.
  - injection Hr as ->. exists i, [], (CPerceive i v0 (Err e)).
    repeat split; try lia. now left. constructor.
  - injection Hr as ->. exists i, [CPerceive i v0 (Ok tt)], (CAct i (Err e)).
    repeat split; try lia. now right. repeat constructor.
Qed.

(** C1: for every sequence of agents and every input, [Workflow.run] starts
    from the input and, agent after agent in the order of the sequence,
    calls [perceive] with the current data and replaces the current data by
    the result of [act] (the recorded calls follow [schedule]); a run that
    does not raise called every agent exactly once, in order, and then
    returns [None]; a run in which a call raises returns that exception at
    once, the failing call being the last one made. *)
Theorem Workflow_run_in_order (agents : list (Stage W)) (input_data : value) (w : W) :
  exists r w' calls,
    Workflow.run (observed_from 0 agents) input_data (w, []) = (r, (w', calls))
    /\ Workflow.run agents input_data w = (r, w')
    /\ (exists r_loop,
          schedule 0 (length agents) input_data calls r_loop
          /\ r = match r_loop with Ok _ => Ok VNone | Err e => Err e end)
    /\ (is_ok r = true ->
          List.map call_index calls
            = flat_map (fun k => [k; k]) (seq 0 (length agents))
          /\ existsb call_failed calls = false)
    /\ (forall e, r = Err e ->
          exists k before failed,
            calls = before ++ [failed]
            /\ call_index failed = k /\ (k < length agents)%nat
            /\ call_failed failed = true
            /\ Forall (fun c => (call_index c <= k)%nat /\ call_failed c = false)
                 before).
Proof.
  destruct (loop_observed agents 0 input_data w [])
    as (r & w' & calls & Hobs & Hrun & Hsched).
  cbn [app] in Hobs. unfold Workflow.run.
  destruct r as [v|e].
  - exists (Ok VNone), (emit (lit "Workflow completed.") w'), calls.
    rewrite (bind_ok _ _ _ _ _ Hobs), (bind_ok _ _ _ _ _ Hrun).
    repeat split.
    + exists (Ok v). now split.
    + eapply schedule_ok_indices; eassumption.
    + eapply schedule_ok_indices; eassumption.
    + discriminate.
  - exists (Err e), w', calls.
    rewrite (bind_err _ _ _ _ _ Hobs), (bind_err _ _ _ _ _ Hrun).
    repeat split.
    + exists (Err e). now split.
    + discriminate.
    + discriminate.
    + intros e0 [= <-].
      destruct (schedule_err_last _ _ _ _ _ Hsched)
        as (k & before & failed & -> & Hk & Hrange & Hshape & Hall).
      exists k, before, failed. repeat split; try assumption; try lia.
      destruct Hshape as [-> | ->]; reflexivity.
Qed.

End WorkflowFacts.

(** ** [InputAgent] *)

(** [act] returns the stored topic, whatever it is, after one notice. *)
Lemma InputAgent_act_eq env self w :
  InputAgent.act env self w
  = (Ok (InputAgent.topic self),
     log (EPrint (lit "Proceeding with research on: "
                    ++ py_str (repr_container env) (InputAgent.topic self))) w).
Proof. reflexivity. Qed.

(** C10: [act] on an [InputAgent] that never perceived anything raises
    nothing: it returns [None], the topic the constructor stored, and prints
    the notice with [None] in it. *)
Theorem InputAgent_act_without_perceive env name w :
  InputAgent.act env (InputAgent.__init__ name) w
  = (Ok VNone, log (EPrint (lit "Proceeding with research on: None")) w).
Proof.
  rewrite InputAgent_act_eq. unfold InputAgent.__init__.
  cbn [InputAgent.topic py_str]. reflexivity.
Qed.

(** ** [RetrievalAgent] *)

Lemma RetrievalAgent_decide_eq env self w :
  RetrievalAgent.decide env self w = (answer env self w, queried self w).
Proof.
  unfold RetrievalAgent.decide, bind, http_get, answer, queried.
  now destruct (requests_get _ _ _ _ _).
Qed.

Lemma RetrievalAgent_act_raises env self w e :
  answer env self w = Err e ->
  RetrievalAgent.act env self w = (Err e, queried self w).
Proof.
  intros Ha. unfold RetrievalAgent.act.
  apply bind_err. now rewrite RetrievalAgent_decide_eq, Ha.
Qed.

Lemma RetrievalAgent_act_not_200 env self w resp :
  answer env self w = Ok resp -> status_code resp <> 200 ->
  RetrievalAgent.act env self w
  = (Ok (VList []), log (EPrint (lit "Failed to retrieve articles.")) (queried self w)).
Proof.
  intros Ha Hs. unfold RetrievalAgent.act.
  erewrite bind_ok by (rewrite RetrievalAgent_decide_eq, Ha; reflexivity).
  now destruct (Z.eqb_spec (status_code resp) 200).
Qed.

Lemma RetrievalAgent_act_200 env self w resp body :
  answer env self w = Ok resp -> status_code resp = 200 ->
  json resp = Ok (VDict body) ->
  RetrievalAgent.act env self w
  = match py_len (items_get body (lit "articles") (VList [])) with
    | Ok n =>
        (Ok (items_get body (lit "articles") (VList [])),
         log (EPrint (lit "Retrieved " ++ str_of_nat n ++ lit " articles."))
           (queried self w))
    | Err e => (Err e, queried self w)
    end.
Proof.
  intros Ha Hs Hj. unfold RetrievalAgent.act.
  erewrite bind_ok by (rewrite RetrievalAgent_decide_eq, Ha; reflexivity).
  rewrite Hs, Z.eqb_refl, Hj. unfold lift, bind. cbn [py_get].
  now destruct (py_len _).
Qed.

(** ** [SummarizationAgent] *)

(** One turn of the loop of [decide] on an article record. *)
Lemma summarize_record env article todo acc w :
  SummarizationAgent.summarize env (VDict article :: todo) acc w
  = if truthy (content_of article) then
      match completion_answer env (content_of article) w with
      | Ok text =>
          SummarizationAgent.summarize env todo (acc ++ [VStr (strip text)])
            (log (completion_call env (content_of article)) w)
      | Err e =>
          SummarizationAgent.summarize env todo
            (acc ++ [VStr SummarizationAgent.unavailable])
            (log (EPrint (lit "Error summarizing article: " ++ exn_msg e))
               (log (completion_call env (content_of article)) w))
      end
    else
      SummarizationAgent.summarize env todo
        (acc ++ [VStr SummarizationAgent.no_content]) w.
Proof.
  cbn [SummarizationAgent.summarize py_get].
  unfold bind at 1. unfold lift at 1. fold (content_of article).
  destruct (truthy (content_of article)); cbn [negb]; [|reflexivity].
  unfold bind at 1, try_except, bind at 1, completion_text.
  fold davinci. fold (completion_answer env (content_of article) w).
  fold (completion_call env (content_of article)).
  now destruct (completion_answer env (content_of article) w).
Qed.

(** The loop of [decide] over article records never raises, and does what
    [summarized] says, after the summaries it started with. *)
Lemma summarize_records env articles :
  forall acc w,
    exists summaries w',
      SummarizationAgent.summarize env (List.map VDict articles) acc w
        = (Ok (acc ++ summaries), w')
      /\ summarized env w articles summaries w'.
Proof.
  induction articles as [|article articles IH]; intros acc w.
  - exists [], w. cbn. rewrite app_nil_r. split; [reflexivity|constructor].
  - cbn [List.map]. rewrite summarize_record.
    destruct (truthy (content_of article)) eqn:Ht.
    + destruct (completion_answer env (content_of article) w) as [text|e] eqn:Hc.
      * destruct (IH (acc ++ [VStr (strip text)])
                    (log (completion_call env (content_of article)) w))
          as (ss & w' & Hs & Hrel).
        exists (VStr (strip text) :: ss), w'. rewrite Hs, <- app_assoc.
        split; [reflexivity|]. now apply summarized_text.
      * destruct (IH (acc ++ [VStr SummarizationAgent.unavailable])
                    (log (EPrint (lit "Error summarizing article: " ++ exn_msg e))
                       (log (completion_call env (content_of article)) w)))
          as (ss & w' & Hs & Hrel).
        exists (VStr SummarizationAgent.unavailable :: ss), w'.
        rewrite Hs, <- app_assoc.
        split; [reflexivity|]. now apply summarized_unavailable with e.
    + destruct (IH (acc ++ [VStr SummarizationAgent.no_content]) w)
        as (ss & w' & Hs & Hrel).
      exists (VStr SummarizationAgent.no_content :: ss), w'.
      rewrite Hs, <- app_assoc.
      split; [reflexivity|]. now apply summarized_no_content.
Qed.

Lemma summarized_length env w articles summaries w' :
  summarized env w articles summaries w' -> length summaries = length articles.
Proof. induction 1; cbn; congruence. Qed.

Lemma summarized_shape env w articles summaries w' :
  summarized env w articles summaries w' -> Forall2 summary_of articles summaries.
Proof.
  induction 1 as [|? ? ? ? ? Ht|? ? ? ? ? ? Ht|? ? ? ? ? ? Ht]; constructor;
    try assumption; unfold summary_of; rewrite Ht; eauto.
Qed.

Lemma model_calls_log e w :
  model_calls (log e w)
  = model_calls w ++ match e with ECompletion _ p _ => [p] | _ => [] end.
Proof.
  unfold model_calls, log. cbn [trace]. rewrite omap_app. cbn.
  now destruct e.
Qed.

(** The completion service is called for the articles with content, and
    for no other, in order. *)
Lemma summarized_model_calls env w articles summaries w' :
  summarized env w articles summaries w' ->
  model_calls w'
  = model_calls w
    ++ List.map (fun article => SummarizationAgent.prompt_of env (content_of article))
         (with_content articles).
Proof.
  unfold with_content.
  induction 1 as [|? ? ? ? ? Ht ? IH|? ? ? ? ? ? Ht ? ? IH|? ? ? ? ? ? Ht ? ? IH];
    cbn [List.filter List.map]; try rewrite Ht.
  - now rewrite app_nil_r.
  - exact IH.
  - rewrite IH, model_calls_log. cbn. now rewrite <- app_assoc.
  - rewrite IH, !model_calls_log. cbn. now rewrite app_nil_r, <- app_assoc.
Qed.

(** Printing the summaries never raises and touches nothing but the
    output. *)
Lemma print_summaries_ok env summaries :
  forall idx w, exists w',
    SummarizationAgent.print_summaries env idx summaries w = (Ok tt, w')
    /\ files w' = files w /\ model_calls w' = model_calls w.
Proof.
  induction summaries as [|s summaries IH]; intros idx w.
  - now exists w.
  - cbn [SummarizationAgent.print_summaries]. unfold bind at 1, print at 1.
    destruct (IH (S idx) (emit (lit "Summary " ++ str_of_nat (idx + 1) ++ lit ": "
                                  ++ py_str (repr_container env) s) w))
      as (w' & Hp & Hf & Hm).
    exists w'. rewrite Hp. repeat split; [exact Hf|].
    rewrite Hm. unfold emit, World_console. rewrite model_calls_log.
    now rewrite app_nil_r.
Qed.

(** [decide] and [act] on article records. *)
Lemma SummarizationAgent_act_records env name articles w :
  exists summaries w1 w2,
    SummarizationAgent.decide env (summarizer name articles) w = (Ok summaries, w1)
    /\ summarized env w articles summaries w1
    /\ SummarizationAgent.act env (summarizer name articles) w
       = (Ok (VList summaries), w2)
    /\ files w2 = files w1 /\ model_calls w2 = model_calls w1.
Proof.
  destruct (summarize_records env articles [] w) as (ss & w1 & Hs & Hrel).
  destruct (print_summaries_ok env ss 0 w1) as (w2 & Hp & Hf & Hm).
  exists ss, w1, w2.
  assert (Hd : SummarizationAgent.decide env (summarizer name articles) w = (Ok ss, w1)).
  { unfold SummarizationAgent.decide, summarizer. cbn [SummarizationAgent.articles py_iter].
    unfold bind, lift. exact Hs. }
  repeat split; try assumption.
  unfold SummarizationAgent.act. rewrite (bind_ok _ _ _ _ _ Hd).
  now rewrite (bind_ok _ _ _ _ _ Hp).
Qed.

Lemma summarize_app env xs ys :
  forall acc w,
    SummarizationAgent.summarize env (xs ++ ys) acc w
    = match SummarizationAgent.summarize env xs acc w with
      | (Ok acc', w') => SummarizationAgent.summarize env ys acc' w'
      | (Err e, w') => (Err e, w')
      end.
Proof.
  induction xs as [|x xs IH]; intros acc w; [reflexivity|].
  cbn [app SummarizationAgent.summarize]. unfold bind, lift.
  destruct (py_get x (lit "content") (VStr [])) as [content|e]; [|reflexivity].
  destruct (negb (truthy content)); [apply IH|].
  destruct (try_except _ _ w) as [[acc'|e] w']; [apply IH|reflexivity].
Qed.

(** C2 (as amended): for every sequence of article records, [act] returns
    one string per article, in the order of the articles: the placeholder
    for an article whose content is empty or absent, the text of the
    completion with the white space around it stripped (which may leave
    nothing) when the call for the article succeeded, and the failure
    placeholder when that call raised; no failure of a call changes the
    length. *)
Theorem SummarizationAgent_act_one_per_article env name articles w :
  exists summaries w1 w',
    SummarizationAgent.act env (summarizer name articles) w
      = (Ok (VList summaries), w')
    /\ length summaries = length articles
    /\ Forall2 summary_of articles summaries
    /\ summarized env w articles summaries w1.
Proof.
  destruct (SummarizationAgent_act_records env name articles w)
    as (ss & w1 & w2 & _ & Hrel & Hact & _).
  exists ss, w1, w2. repeat split.
  - exact Hact.
  - eapply summarized_length; eassumption.
  - eapply summarized_shape; eassumption.
  - exact Hrel.
Qed.

(** C2, as stated, fails: the call for the article succeeds and the summary
    is the empty string, which is neither placeholder. *)
Lemma SummarizationAgent_summary_may_be_empty :
  truthy (content_of (article_of (VStr (lit "Some text.")))) = true
  /\ completion_answer blank_env (VStr (lit "Some text.")) world0 = Ok (lit "  ")
  /\ fst (SummarizationAgent.act blank_env
            (summarizer VNone [article_of (VStr (lit "Some text."))]) world0)
     = Ok (VList [VStr []])
  /\ VStr [] <> VStr SummarizationAgent.no_content
  /\ VStr [] <> VStr SummarizationAgent.unavailable.
Proof. repeat split; try reflexivity; discriminate. Qed.

(** C5 (as amended): an article whose content is empty or absent gets the
    string "No content to summarize." at its position and costs nothing: the
    articles after it are summarized from the world the loop reached before
    it, and over the whole sequence the completion service is called for the
    articles with content and no other; an article whose call raises gets
    the string "Summary unavailable." at its position, after a notice, and
    the loop goes on. *)
Theorem SummarizationAgent_placeholders env name before article after w :
  exists done w1,
    summarized env w before done w1
    /\ (truthy (content_of article) = false ->
        exists rest w2,
          summarized env w1 after rest w2
          /\ SummarizationAgent.decide env
               (summarizer name (before ++ article :: after)) w
             = (Ok (done ++ VStr (lit "No content to summarize.") :: rest), w2))
    /\ (forall e,
          truthy (content_of article) = true ->
          completion_answer env (content_of article) w1 = Err e ->
          exists rest w2,
            summarized env
              (log (EPrint (lit "Error summarizing article: " ++ exn_msg e))
                 (log (completion_call env (content_of article)) w1))
              after rest w2
            /\ SummarizationAgent.decide env
                 (summarizer name (before ++ article :: after)) w
               = (Ok (done ++ VStr (lit "Summary unavailable.") :: rest), w2))
    /\ (exists summaries w',
          SummarizationAgent.decide env
            (summarizer name (before ++ article :: after)) w
          = (Ok summaries, w')
          /\ model_calls w'
             = model_calls w
               ++ List.map
                    (fun a => SummarizationAgent.prompt_of env (content_of a))
                    (with_content (before ++ article :: after))).
Proof.
  destruct (summarize_records env before [] w) as (done & w1 & Hb & Hrel).
  cbn [app] in Hb.
  assert (Hd : forall x,
    SummarizationAgent.decide env (summarizer name (before ++ article :: after)) w = x
    <-> SummarizationAgent.summarize env (VDict article :: List.map VDict after) done w1 = x).
  { intros x. unfold SummarizationAgent.decide, summarizer.
    cbn [SummarizationAgent.articles py_iter]. unfold bind, lift.
    rewrite map_app, summarize_app, Hb. reflexivity. }
  exists done, w1. split; [exact Hrel|]. split; [|split].
  - intros Ht.
    destruct (summarize_records env after (done ++ [VStr SummarizationAgent.no_content]) w1)
      as (rest & w2 & Ha & Hrel').
    exists rest, w2. split; [exact Hrel'|]. apply Hd.
    rewrite summarize_record, Ht, Ha, <- app_assoc. reflexivity.
  - intros e Ht Hc.
    destruct (summarize_records env after (done ++ [VStr SummarizationAgent.unavailable])
                (log (EPrint (lit "Error summarizing article: " ++ exn_msg e))
                   (log (completion_call env (content_of article)) w1)))
      as (rest & w2 & Ha & Hrel').
    exists rest, w2. split; [exact Hrel'|]. apply Hd.
    rewrite summarize_record, Ht, Hc, Ha, <- app_assoc. reflexivity.
  - destruct (SummarizationAgent_act_records env name (before ++ article :: after) w)
      as (ss & w' & _ & Hdec & Hrel' & _).
    exists ss, w'. split; [exact Hdec|].
    eapply summarized_model_calls; eassumption.
Qed.

(** The two cases of C5 on an article without content and on an article
    whose completion call raises. *)
Lemma SummarizationAgent_placeholders_witness :
  (exists done w1 rest w2,
     SummarizationAgent.decide quiet_env
       (summarizer VNone ([article_of (VStr (lit "First."))]
                            ++ article_of (VStr []) :: [article_of VNone])) world0
     = (Ok (done ++ VStr (lit "No content to summarize.") :: rest), w2)
     /\ summarized quiet_env w1 [article_of VNone] rest w2)
  /\ (exists done w1 rest w2,
        SummarizationAgent.decide no_completion_env
          (summarizer VNone ([] ++ article_of (VStr (lit "Text.")) :: [])) world0
        = (Ok (done ++ VStr (lit "Summary unavailable.") :: rest), w2)
        /\ summarized no_completion_env w1 [] rest w2).
Proof.
  split.
  - destruct (SummarizationAgent_placeholders quiet_env VNone
                [article_of (VStr (lit "First."))] (article_of (VStr []))
                [article_of VNone] world0)
      as (done & w1 & _ & Hnone & _).
    destruct (Hnone eq_refl) as (rest & w2 & Hrel & Hdec).
    exists done, w1, rest, w2. split; [exact Hdec|exact Hrel].
  - destruct (SummarizationAgent_placeholders no_completion_env VNone
                [] (article_of (VStr (lit "Text."))) [] world0)
      as (done & w1 & _ & _ & Hfail & _).
    destruct (Hfail _ eq_refl eq_refl) as (rest & w2 & Hrel & Hdec).
    exists done. eexists. exists rest, w2. split; [exact Hdec|exact Hrel].
Defined.

(** C5, as stated, fails on the text of the placeholders: the strings the
    code appends start with a capital and end with a full stop. *)
Lemma SummarizationAgent_placeholder_strings :
  fst (SummarizationAgent.act quiet_env
         (summarizer VNone [article_of (VStr [])]) world0)
  = Ok (VList [VStr (lit "No content to summarize.")])
  /\ lit "No content to summarize." <> lit "no content to summarize"
  /\ fst (SummarizationAgent.act no_completion_env
            (summarizer VNone [article_of (VStr (lit "Text."))]) world0)
     = Ok (VList [VStr (lit "Summary unavailable.")])
  /\ lit "Summary unavailable." <> lit "summary unavailable".
Proof. repeat split; try reflexivity; discriminate. Qed.

(** ** [FileStorageAgent] *)

Lemma stdout_log e w :
  stdout (log e w) = stdout w ++ match e with EPrint l => [l] | _ => [] end.
Proof.
  unfold stdout, log. cbn [trace]. rewrite omap_app. cbn. now destruct e.
Qed.

Lemma file_content_set_file path data w :
  file_content path (set_file path data w) = data.
Proof. unfold file_content, set_file. cbn [files]. now rewrite lookup_insert_eq. Qed.

Lemma entries_cons s summaries :
  entries (s :: summaries) = (s ++ [LF; LF]) ++ entries summaries.
Proof. reflexivity. Qed.

Lemma after_writes_cons s summaries w :
  after_writes (s :: summaries) w
  = after_writes summaries
      (log (EWrite FileStorageAgent.path (s ++ [LF; LF])) w).
Proof. reflexivity. Qed.

(** The calls of [write] add to the trace and to nothing else. *)
Lemma after_writes_keeps summaries :
  forall w,
    trace (after_writes summaries w) = trace w ++ write_calls summaries
    /\ files (after_writes summaries w) = files w
    /\ openai_api_key (after_writes summaries w) = openai_api_key w
    /\ stdout (after_writes summaries w) = stdout w.
Proof.
  induction summaries as [|s summaries IH]; intros w.
  - cbn. now rewrite app_nil_r.
  - rewrite after_writes_cons.
    destruct (IH (log (EWrite FileStorageAgent.path (s ++ [LF; LF])) w))
      as (Ht & Hf & Hk & Hs).
    rewrite Ht, Hf, Hk, Hs, stdout_log. cbn [log trace files openai_api_key].
    rewrite <- app_assoc, app_nil_r. repeat split.
Qed.

Lemma writes_work_cons env w s summaries :
  writes_work env w (s :: summaries)
  <-> file_write env (trace w) FileStorageAgent.path (s ++ [LF; LF]) = None
      /\ writes_work env (log (EWrite FileStorageAgent.path (s ++ [LF; LF])) w)
           summaries.
Proof.
  split.
  - intros H. split; [exact (H 0%nat s eq_refl)|].
    intros k x Hk. exact (H (S k) x Hk).
  - intros [H0 H] [|k] x Hk.
    + injection Hk as <-. exact H0.
    + exact (H k x Hk).
Qed.

(** The loop of [act] when every write goes through: the text is in the
    buffer. *)
Lemma write_all_works env summaries :
  forall w pending,
    writes_work env w summaries ->
    FileStorageAgent.write_all env (List.map VStr summaries) (w, Buffered pending)
    = (Ok tt, (after_writes summaries w, Buffered (pending ++ entries summaries))).
Proof.
  induction summaries as [|s summaries IH]; intros w pending Hw.
  - cbn. now rewrite app_nil_r.
  - apply writes_work_cons in Hw as [H0 Hw].
    cbn [List.map FileStorageAgent.write_all py_add_str].
    unfold bind at 1, lift at 1. unfold bind at 1, write at 1. cbn [fst snd].
    rewrite H0, (IH _ _ Hw), entries_cons, after_writes_cons, <- app_assoc.
    reflexivity.
Qed.

(** A loop of writes that does not raise made every write. *)
Lemma write_all_ok_inv env summaries :
  forall w buf u st,
    FileStorageAgent.write_all env (List.map VStr summaries) (w, buf) = (Ok u, st) ->
    writes_work env w summaries.
Proof.
  induction summaries as [|s summaries IH]; intros w buf u st H.
  - intros k x Hk. discriminate Hk.
  - cbn [List.map FileStorageAgent.write_all py_add_str] in H.
    unfold bind at 1, lift at 1 in H. unfold bind at 1, write at 1 in H.
    cbn [fst snd] in H.
    destruct (file_write env (trace w) FileStorageAgent.path (s ++ [LF; LF]))
      eqn:H0; [discriminate|].
    apply writes_work_cons. split; [exact H0|]. exact (IH _ _ _ _ H).
Qed.

(** The loop of [act] when the write of the summary after [before] raises:
    the loop stops there. *)
Lemma write_all_raises env before s after e :
  forall w buf,
    writes_work env w before ->
    file_write env (trace (after_writes before w)) FileStorageAgent.path
      (s ++ [LF; LF]) = Some e ->
    FileStorageAgent.write_all env (List.map VStr (before ++ s :: after)) (w, buf)
    = (Err e,
       (log (EWrite FileStorageAgent.path (s ++ [LF; LF])) (after_writes before w),
        Broken)).
Proof.
  induction before as [|b before IH]; intros w buf Hw Hs.
  - cbn [app List.map FileStorageAgent.write_all py_add_str].
    unfold bind at 1, lift at 1. apply bind_err. unfold write. cbn [fst snd].
    change (after_writes [] w) with w in *. now rewrite Hs.
  - apply writes_work_cons in Hw as [H0 Hw].
    cbn [app List.map FileStorageAgent.write_all py_add_str].
    unfold bind at 1, lift at 1. unfold bind at 1, write at 1. cbn [fst snd].
    rewrite H0. rewrite after_writes_cons. apply IH; assumption.
Qed.

(** Closing after writes that all went through. *)
Lemma close_works env pending w :
  pending = [] \/ file_close env (trace w) FileStorageAgent.path = None ->
  close env FileStorageAgent.path (Buffered pending) w = (Ok tt, flushed pending w).
Proof.
  intros H. unfold close, flushed. destruct pending as [|c pending]; [reflexivity|].
  destruct H as [H|H]; [discriminate|]. now rewrite H.
Qed.

(** Closing does not raise only if there was nothing to flush or the flush
    went through. *)
Lemma close_ok_inv env pending w u w' :
  close env FileStorageAgent.path (Buffered pending) w = (Ok u, w') ->
  w' = flushed pending w.
Proof.
  unfold close, flushed. destruct pending as [|c pending]; [now intros [= _ <-]|].
  destruct (file_close env (trace w) FileStorageAgent.path); [discriminate|].
  now intros [= _ <-].
Qed.

Lemma close_ok_flushed env pending w u w' :
  close env FileStorageAgent.path (Buffered pending) w = (Ok u, w') ->
  pending = [] \/ file_close env (trace w) FileStorageAgent.path = None.
Proof.
  unfold close. destruct pending as [|c pending]; [now left|].
  destruct (file_close env (trace w) FileStorageAgent.path); [discriminate|].
  now right.
Qed.

(** [act] up to the end of the [with] block, in terms of the loop of
    writes and the close. *)
Lemma FileStorageAgent_act_eq env self w :
  FileStorageAgent.act env self w
  = match open_w env (trace w) FileStorageAgent.path with
    | Some e => (Err e, log (EOpen FileStorageAgent.path) w)
    | None =>
        match (todo <~ lift (py_iter (FileStorageAgent.summaries self));
               FileStorageAgent.write_all env todo) (opened w, Buffered []) with
        | (r, (w1, buf)) =>
            match close env FileStorageAgent.path buf w1 with
            | (Ok _, w2) =>
                match r with
                | Ok _ =>
                    (Ok (VStr (lit "Summaries saved to research_summaries.txt.")),
                     log (EPrint (lit "Summaries saved to research_summaries.txt."))
                       w2)
                | Err e => (Err e, w2)
                end
            | (Err e, w2) => (Err e, w2)
            end
        end
    end.
Proof.
  unfold FileStorageAgent.act. unfold bind at 1, open_for_writing.
  destruct (open_w env (trace w) FileStorageAgent.path); [reflexivity|].
  fold (opened w). unfold bind at 1, with_file.
  destruct ((todo <~ lift (py_iter (FileStorageAgent.summaries self));
             FileStorageAgent.write_all env todo) (opened w, Buffered []))
    as [r [w1 buf]].
  destruct (close env FileStorageAgent.path buf w1) as [[u|e] w2]; [|reflexivity].
  destruct r; reflexivity.
Qed.

(** [act] when the run of the storage goes through. *)
Lemma FileStorageAgent_act_works env name summaries w :
  storage_works env w summaries ->
  FileStorageAgent.act env (storer name summaries) w
  = (Ok (VStr (lit "Summaries saved to research_summaries.txt.")),
     log (EPrint (lit "Summaries saved to research_summaries.txt."))
       (stored summaries w)).
Proof.
  intros (Ho & Hw & Hc). rewrite FileStorageAgent_act_eq, Ho.
  unfold storer. cbn [FileStorageAgent.summaries py_iter].
  unfold bind at 1, lift at 1.
  rewrite (write_all_works env summaries _ [] Hw). cbn [app].
  rewrite close_works; [reflexivity|].
  destruct Hc as [->|Hc]; [now left|now right].
Qed.

(** An [act] that does not raise opened the file, made every write,
    closed the file, and printed and returned the message. *)
Lemma FileStorageAgent_act_ok_inv env name summaries w r w' :
  FileStorageAgent.act env (storer name summaries) w = (Ok r, w') ->
  r = VStr (lit "Summaries saved to research_summaries.txt.")
  /\ w' = log (EPrint (lit "Summaries saved to research_summaries.txt."))
            (stored summaries w)
  /\ open_w env (trace w) FileStorageAgent.path = None
  /\ writes_work env (opened w) summaries
  /\ (summaries = []
      \/ file_close env (trace (after_writes summaries (opened w)))
           FileStorageAgent.path = None).
Proof.
  rewrite FileStorageAgent_act_eq.
  destruct (open_w env (trace w) FileStorageAgent.path); [discriminate|].
  unfold storer. cbn [FileStorageAgent.summaries py_iter].
  unfold bind at 1, lift at 1.
  destruct (FileStorageAgent.write_all env (List.map VStr summaries)
              (opened w, Buffered [])) as [[u|e] [w1 buf]] eqn:Hw.
  - pose proof (write_all_ok_inv _ _ _ _ _ _ Hw) as Hworks.
    rewrite (write_all_works env summaries _ [] Hworks) in Hw.
    injection Hw as _ <- <-. cbn [app].
    destruct (close env FileStorageAgent.path (Buffered (entries summaries))
                (after_writes summaries (opened w))) as [[u'|e] w2] eqn:Hc;
      [|discriminate].
    pose proof (close_ok_flushed _ _ _ _ _ Hc) as Hflush.
    apply close_ok_inv in Hc. subst w2.
    intros [= <- <-]. repeat split; [exact Hworks|].
    destruct Hflush as [He|Hclose]; [left|now right].
    destruct summaries as [|s0 summaries0]; [reflexivity|].
    rewrite entries_cons in He. destruct s0; discriminate He.
  - destruct (close env FileStorageAgent.path buf w1) as [[u'|e'] w2];
      discriminate.
Qed.

(** The files after a run that went through: the output file holds the
    entries, and no other file changed. *)
Lemma files_stored summaries w :
  files (stored summaries w)
  = <[FileStorageAgent.path := entries summaries]> (files w).
Proof.
  unfold stored, flushed.
  destruct (after_writes_keeps summaries (opened w)) as (_ & Hf & _).
  destruct (entries summaries) as [|c pending] eqn:He.
  - rewrite Hf. reflexivity.
  - unfold set_file, file_content. cbn [files]. rewrite Hf.
    unfold opened, set_file. cbn [files log].
    now rewrite lookup_insert_eq, insert_insert_eq.
Qed.

Lemma stdout_stored summaries w : stdout (stored summaries w) = stdout w.
Proof.
  unfold stored, flushed.
  destruct (after_writes_keeps summaries (opened w)) as (_ & _ & _ & Hs).
  assert (Ho : stdout (opened w) = stdout w).
  { unfold opened, stdout, set_file, log. cbn [trace]. rewrite omap_app. cbn.
    now rewrite app_nil_r. }
  destruct (entries summaries); [congruence|].
  unfold stdout, set_file in *. cbn [trace] in *. congruence.
Qed.

(** C6: for every sequence of summaries, an [act] that does not raise
    leaves in the output file exactly the summaries, each followed by an
    empty line, in their order, whatever the file held before (no other file
    changes), and returns the message of [decide], after printing it; and
    [act] does not raise when, in this run, opening the file, each write and
    the close of the file do not. *)
Theorem FileStorageAgent_act_writes env name summaries w :
  (forall r w',
      FileStorageAgent.act env (storer name summaries) w = (Ok r, w') ->
      r = VStr (FileStorageAgent.decide (storer name summaries))
      /\ files w' = <[FileStorageAgent.path := entries summaries]> (files w)
      /\ file_content FileStorageAgent.path w' = entries summaries
      /\ stdout w'
         = stdout w ++ [lit "Summaries saved to research_summaries.txt."])
  /\ (storage_works env w summaries ->
      exists w',
        FileStorageAgent.act env (storer name summaries) w
        = (Ok (VStr (FileStorageAgent.decide (storer name summaries))), w')).
Proof.
  split.
  - intros r w' H. apply FileStorageAgent_act_ok_inv in H as (-> & -> & _).
    split; [reflexivity|]. split; [|split].
    + cbn [log files]. apply files_stored.
    + unfold file_content. cbn [log files].
      now rewrite files_stored, lookup_insert_eq.
    + now rewrite stdout_log, stdout_stored.
  - intros Hs. eexists. now apply FileStorageAgent_act_works.
Qed.

(** C6 on two summaries, over a file that held something else. *)
Lemma FileStorageAgent_act_writes_witness :
  exists w',
    FileStorageAgent.act quiet_env
      (storer VNone [lit "First summary."; lit "Second summary."])
      world_with_old_file
    = (Ok (VStr (lit "Summaries saved to research_summaries.txt.")), w')
    /\ file_content FileStorageAgent.path w'
       = lit "First summary." ++ [LF; LF] ++ lit "Second summary." ++ [LF; LF].
Proof.
  destruct (FileStorageAgent_act_writes quiet_env VNone
              [lit "First summary."; lit "Second summary."] world_with_old_file)
    as (Hcontent & Hruns).
  destruct Hruns as (w' & Hact).
  { split; [reflexivity|]. split; [intros k x _; reflexivity|now right]. }
  exists w'. split; [exact Hact|].
  destruct (Hcontent _ _ Hact) as (_ & _ & Hc & _). exact Hc.
Defined.

(** C7: when [act] runs twice on the same summaries, the second run leaves
    the files the first one left: it replaces the content of the output file
    by the same content; and each of the two runs goes through when, in that
    run, opening the file, each write and the close of the file do not
    raise. *)
Theorem FileStorageAgent_act_idempotent env name summaries w :
  (forall r1 w1 r2 w2,
      FileStorageAgent.act env (storer name summaries) w = (Ok r1, w1) ->
      FileStorageAgent.act env (storer name summaries) w1 = (Ok r2, w2) ->
      files w2 = files w1
      /\ file_content FileStorageAgent.path w2
         = file_content FileStorageAgent.path w1)
  /\ (storage_works env w summaries ->
      exists r1 w1,
        FileStorageAgent.act env (storer name summaries) w = (Ok r1, w1)
        /\ (storage_works env w1 summaries ->
            exists r2 w2,
              FileStorageAgent.act env (storer name summaries) w1 = (Ok r2, w2)
              /\ files w2 = files w1)).
Proof.
  assert (Hsame : forall r1 w1 r2 w2,
      FileStorageAgent.act env (storer name summaries) w = (Ok r1, w1) ->
      FileStorageAgent.act env (storer name summaries) w1 = (Ok r2, w2) ->
      files w2 = files w1).
  { intros r1 w1 r2 w2 H1 H2.
    apply FileStorageAgent_act_ok_inv in H1 as (_ & -> & _).
    apply FileStorageAgent_act_ok_inv in H2 as (_ & -> & _).
    cbn [log files]. rewrite !files_stored. cbn [log files].
    now rewrite files_stored, insert_insert_eq. }
  split.
  - intros r1 w1 r2 w2 H1 H2. pose proof (Hsame _ _ _ _ H1 H2) as Hf.
    split; [exact Hf|]. unfold file_content. now rewrite Hf.
  - intros Hs. eexists _, _. split; [now apply FileStorageAgent_act_works|].
    intros Hs1. eexists _, _. split; [now apply FileStorageAgent_act_works|].
    eapply Hsame; now apply FileStorageAgent_act_works.
Qed.

(** C7 on two summaries. *)
Lemma FileStorageAgent_act_idempotent_witness :
  exists r1 w1 r2 w2,
    FileStorageAgent.act quiet_env (storer VNone [lit "One."; lit "Two."]) world0
      = (Ok r1, w1)
    /\ FileStorageAgent.act quiet_env (storer VNone [lit "One."; lit "Two."]) w1
       = (Ok r2, w2)
    /\ files w2 = files w1.
Proof.
  destruct (FileStorageAgent_act_idempotent quiet_env VNone
              [lit "One."; lit "Two."] world0) as (_ & Hruns).
  destruct Hruns as (r1 & w1 & H1 & Hagain).
  { split; [reflexivity|]. split; [intros k x _; reflexivity|now right]. }
  destruct Hagain as (r2 & w2 & H2 & Hf).
  { split; [reflexivity|]. split; [intros k x _; reflexivity|now right]. }
  exists r1, w1, r2, w2. split; [exact H1|]. split; [exact H2|exact Hf].
Defined.

(** ** [RetrievalAgent]: what [act] returns *)

Lemma items_get_find d key dflt :
  items_get d key dflt = from_option id dflt (items_find d key).
Proof.
  induction d as [|[k v] d IH]; [reflexivity|].
  cbn [items_get items_find]. now destruct (bool_decide (k = key)).
Qed.

(** C3: when the query is answered with status 200 and a body whose
    [articles] field is a sequence, [act] returns that sequence (its length
    and order are those of the field), after a notice with its length; when
    the body has no [articles] field, [act] returns the empty sequence; and
    when the status is not 200, [act] returns the empty sequence. *)
Theorem RetrievalAgent_act_articles env self w resp :
  answer env self w = Ok resp ->
  (forall body articles,
      status_code resp = 200 -> json resp = Ok (VDict body) ->
      items_find body (lit "articles") = Some (VList articles) ->
      RetrievalAgent.act env self w
      = (Ok (VList articles),
         log (EPrint (lit "Retrieved " ++ str_of_nat (length articles)
                        ++ lit " articles."))
           (queried self w)))
  /\ (forall body,
        status_code resp = 200 -> json resp = Ok (VDict body) ->
        items_find body (lit "articles") = None ->
        fst (RetrievalAgent.act env self w) = Ok (VList []))
  /\ (status_code resp <> 200 ->
      fst (RetrievalAgent.act env self w) = Ok (VList [])).
Proof.
  intros Ha. split; [|split].
  - intros body articles Hs Hj Hf.
    rewrite (RetrievalAgent_act_200 env self w resp body Ha Hs Hj).
    now rewrite items_get_find, Hf.
  - intros body Hs Hj Hf.
    rewrite (RetrievalAgent_act_200 env self w resp body Ha Hs Hj).
    now rewrite items_get_find, Hf.
  - intros Hs.
    now rewrite (RetrievalAgent_act_not_200 env self w resp Ha Hs).
Qed.

(** C3 on a response with two articles, on one without the field, and on a
    response with status 404. *)
Lemma RetrievalAgent_act_articles_witness :
  fst (RetrievalAgent.act
         (news_env (response_of 200 [(lit "status", VStr (lit "ok"));
                                     (lit "articles", VList two_articles)]))
         (retriever VNone VNone) world0)
  = Ok (VList two_articles)
  /\ fst (RetrievalAgent.act
            (news_env (response_of 200 [(lit "status", VStr (lit "ok"))]))
            (retriever VNone VNone) world0)
     = Ok (VList [])
  /\ fst (RetrievalAgent.act
            (news_env (response_of 404 [(lit "articles", VList two_articles)]))
            (retriever VNone VNone) world0)
     = Ok (VList []).
Proof.
  split; [|split].
  - destruct (RetrievalAgent_act_articles
                (news_env (response_of 200 [(lit "status", VStr (lit "ok"));
                                            (lit "articles", VList two_articles)]))
                (retriever VNone VNone) world0 _ eq_refl) as (H200 & _ & _).
    now rewrite (H200 _ two_articles eq_refl eq_refl eq_refl).
  - destruct (RetrievalAgent_act_articles
                (news_env (response_of 200 [(lit "status", VStr (lit "ok"))]))
                (retriever VNone VNone) world0 _ eq_refl) as (_ & Habsent & _).
    exact (Habsent _ eq_refl eq_refl eq_refl).
  - destruct (RetrievalAgent_act_articles
                (news_env (response_of 404 [(lit "articles", VList two_articles)]))
                (retriever VNone VNone) world0 _ eq_refl) as (_ & _ & Hrefused).
    apply Hrefused. discriminate.
Defined.

(** ** The script *)

(** [main], started before any object exists, does to the outside world
    what the data flow of its four agents does. *)
Lemma main_pipeline env key w :
  (let '(r, s) := main env key (start w) in (r, world s)) = pipeline env key w.
Proof.
  unfold main, start, pipeline.
  do 4 (unfold new at 1; unfold bind at 1; cbn [heap world length app]).
  cbn [List.map]. unfold Workflow.run. cbn [Workflow.loop].
  unfold bind.
  repeat (cbn [perceive act stage_at heap world lookup list_lookup
               object_perceive object_act insert list_insert fst snd
               InputAgent.perceive RetrievalAgent.perceive
               SummarizationAgent.perceive FileStorageAgent.perceive
               InputAgent.__init__ RetrievalAgent.__init__
               SummarizationAgent.__init__ FileStorageAgent.__init__
               InputAgent.name RetrievalAgent.name RetrievalAgent.api_url
               RetrievalAgent.api_key SummarizationAgent.name
               FileStorageAgent.name];
          unfold in_world at 1; cbn [heap world];
          match goal with
          | |- context [InputAgent.act ?e ?a ?x] =>
              destruct (InputAgent.act e a x) as [[?|?] ?]
          | |- context [RetrievalAgent.act ?e ?a ?x] =>
              destruct (RetrievalAgent.act e a x) as [[?|?] ?]
          | |- context [SummarizationAgent.act ?e ?a ?x] =>
              destruct (SummarizationAgent.act e a x) as [[?|?] ?]
          | |- context [FileStorageAgent.act ?e ?a ?x] =>
              destruct (FileStorageAgent.act e a x) as [[?|?] ?]
          end; try reflexivity).
Qed.

(** *** After a refused retrieval *)

Lemma SummarizationAgent_act_nothing env name w :
  SummarizationAgent.act env
    {| SummarizationAgent.name := name; SummarizationAgent.articles := VList [] |} w
  = (Ok (VList []), w).
Proof. reflexivity. Qed.

Lemma FileStorageAgent_act_nothing env name w :
  FileStorageAgent.act env
    {| FileStorageAgent.name := name; FileStorageAgent.summaries := VList [] |} w
  = match open_w env (trace w) FileStorageAgent.path with
    | Some e => (Err e, log (EOpen FileStorageAgent.path) w)
    | None =>
        (Ok (VStr (lit "Summaries saved to research_summaries.txt.")),
         log (EPrint (lit "Summaries saved to research_summaries.txt."))
           (opened w))
    end.
Proof.
  rewrite FileStorageAgent_act_eq.
  now destruct (open_w env (trace w) FileStorageAgent.path).
Qed.

(** After a refused retrieval the script summarizes nothing and goes on to
    the storage agent, whose opening of the output file decides the
    outcome. *)
Lemma pipeline_after_refusal env key w resp :
  answer env (retriever key (VStr (lit "AI in Healthcare"))) (after_input w)
  = Ok resp ->
  status_code resp <> 200 ->
  pipeline env key w
  = match open_w env (trace (after_refusal key w)) FileStorageAgent.path with
    | Some e => (Err e, log (EOpen FileStorageAgent.path) (after_refusal key w))
    | None =>
        (Ok VNone,
         log (EPrint (lit "Workflow completed."))
           (log (EPrint (lit "Summaries saved to research_summaries.txt."))
              (opened (after_refusal key w))))
    end.
Proof.
  intros Hget Hstatus. unfold pipeline.
  rewrite (bind_ok _ _ _ _ _ (InputAgent_act_eq env _ w)).
  cbn [InputAgent.topic py_str].
  change (log (EPrint (lit "Proceeding with research on: "
                         ++ lit "AI in Healthcare")) w)
    with (after_input w).
  fold (retriever key (VStr (lit "AI in Healthcare"))).
  rewrite (bind_ok _ _ _ _ _
             (RetrievalAgent_act_not_200 env
                (retriever key (VStr (lit "AI in Healthcare"))) (after_input w)
                resp Hget Hstatus)).
  rewrite (bind_ok _ _ _ _ _ (SummarizationAgent_act_nothing env _ _)).
  unfold bind at 1. rewrite FileStorageAgent_act_nothing.
  change (log (EPrint (lit "Failed to retrieve articles."))
            (queried (retriever key (VStr (lit "AI in Healthcare")))
               (after_input w)))
    with (after_refusal key w).
  now destruct (open_w env (trace (after_refusal key w)) FileStorageAgent.path).
Qed.

Lemma main_after_refusal env key w resp :
  answer env (retriever key (VStr (lit "AI in Healthcare"))) (after_input w)
  = Ok resp ->
  status_code resp <> 200 ->
  exists s',
    main env key (start w)
    = (match open_w env (trace (after_refusal key w)) FileStorageAgent.path with
       | Some e => Err e
       | None => Ok VNone
       end, s')
    /\ world s'
       = match open_w env (trace (after_refusal key w)) FileStorageAgent.path with
         | Some e => log (EOpen FileStorageAgent.path) (after_refusal key w)
         | None =>
             log (EPrint (lit "Workflow completed."))
               (log (EPrint (lit "Summaries saved to research_summaries.txt."))
                  (opened (after_refusal key w)))
         end.
Proof.
  intros Hget Hstatus. pose proof (main_pipeline env key w) as Hm.
  rewrite (pipeline_after_refusal env key w resp Hget Hstatus) in Hm.
  destruct (main env key (start w)) as [r s']. exists s'.
  destruct (open_w env (trace (after_refusal key w)) FileStorageAgent.path);
    injection Hm as -> ->; split; reflexivity.
Qed.

(** One turn of the loop of [Workflow.run] on an object whose [perceive]
    goes through. *)
Lemma loop_stage_at env l o o' rest input_data s :
  heap s !! l = Some o ->
  object_perceive o input_data = Ok o' ->
  Workflow.loop (stage_at env l :: rest) input_data s
  = match object_act env o' (world s) with
    | (Ok current_data, w') =>
        Workflow.loop rest current_data
          {| heap := <[l := o']> (heap s); world := w' |}
    | (Err e, w') => (Err e, {| heap := <[l := o']> (heap s); world := w' |})
    end.
Proof.
  intros Hl Hp. cbn [Workflow.loop]. unfold bind at 1.
  cbn [perceive stage_at]. rewrite Hl, Hp.
  unfold bind at 1. cbn [act stage_at heap].
  rewrite list_lookup_insert_eq by (eapply lookup_lt_Some; eassumption).
  unfold in_world. cbn [heap world].
  now destruct (object_act env o' (world s)) as [[v|e] w'].
Qed.

(** C4 (as amended): a retrieval refused by the endpoint (a response whose
    status is not 200) is absorbed by the retrieval agent: [act] returns the
    empty article collection after a notice; the exception-free result goes
    on through [Workflow.run], whose loop continues with the agents after it
    on the empty collection; a summarization agent that receives it asks for
    no summary and returns none; and the script, so refused, reaches the
    storage agent and completes with an empty output file, unless opening
    that file raises. *)
Theorem RetrievalAgent_absorbs_refusal env :
  (forall self w resp,
      answer env self w = Ok resp -> status_code resp <> 200 ->
      exists w1,
        RetrievalAgent.act env self w = (Ok (VList []), w1)
        /\ stdout w1 = stdout w ++ [lit "Failed to retrieve articles."])
  /\ (forall l a rest input_data s resp,
        heap s !! l = Some (ORetrievalAgent a) ->
        answer env (retrieving a input_data) (world s) = Ok resp ->
        status_code resp <> 200 ->
        Workflow.loop (stage_at env l :: rest) input_data s
        = Workflow.loop rest (VList [])
            {| heap := <[l := ORetrievalAgent (retrieving a input_data)]> (heap s);
               world := log (EPrint (lit "Failed to retrieve articles."))
                          (queried (retrieving a input_data) (world s)) |})
  /\ (forall name w,
        SummarizationAgent.act env
          {| SummarizationAgent.name := name;
             SummarizationAgent.articles := VList [] |} w
        = (Ok (VList []), w))
  /\ (forall key w resp,
        answer env (retriever key (VStr (lit "AI in Healthcare"))) (after_input w)
        = Ok resp ->
        status_code resp <> 200 ->
        exists r s',
          main env key (start w) = (r, s')
          /\ model_calls (world s') = model_calls w
          /\ ((r = Ok VNone
               /\ file_content FileStorageAgent.path (world s') = []
               /\ stdout (world s')
                  = stdout w
                    ++ [lit "Proceeding with research on: AI in Healthcare";
                        lit "Failed to retrieve articles.";
                        lit "Summaries saved to research_summaries.txt.";
                        lit "Workflow completed."])
              \/ (exists e,
                    r = Err e
                    /\ open_w env (trace (after_refusal key w))
                         FileStorageAgent.path
                       = Some e))).
Proof.
  repeat apply conj.
  - intros self w resp Hget Hstatus. eexists. split.
    + exact (RetrievalAgent_act_not_200 env self w resp Hget Hstatus).
    + unfold queried. now rewrite !stdout_log, app_nil_r.
  - intros l a rest v s resp Hl Hget Hstatus.
    rewrite (loop_stage_at env l _ (ORetrievalAgent (retrieving a v)) rest v s Hl eq_refl).
    cbn [object_act].
    now rewrite (RetrievalAgent_act_not_200 env _ _ resp Hget Hstatus).
  - reflexivity.
  - intros key w resp Hget Hstatus.
    destruct (main_after_refusal env key w resp Hget Hstatus) as (s' & Hm & Hw).
    eexists. exists s'. split; [exact Hm|]. rewrite Hw.
    destruct (open_w env (trace (after_refusal key w)) FileStorageAgent.path)
      as [e|] eqn:Ho.
    + split.
      * unfold after_refusal, queried. rewrite !model_calls_log.
        now rewrite !app_nil_r.
      * right. now exists e.
    + split.
      * unfold opened, after_refusal, queried, model_calls, set_file, log.
        cbn [trace]. rewrite !omap_app. cbn. now rewrite !app_nil_r.
      * left. split; [reflexivity|]. split.
        -- unfold file_content, opened, set_file, log. cbn [files].
           now rewrite lookup_insert_eq.
        -- unfold opened, after_refusal, queried, stdout, set_file, log.
           cbn [trace]. rewrite !omap_app. cbn.
           now rewrite !app_nil_r, <- !app_assoc.
Qed.

(** C4 on an endpoint that answers 404: the agent alone, the agent in a
    workflow before a summarization agent, and the script. *)
Lemma RetrievalAgent_absorbs_refusal_witness :
  (exists w1,
     RetrievalAgent.act (news_env (response_of 404 []))
       (retriever VNone (VStr (lit "AI in Healthcare"))) world0
     = (Ok (VList []), w1))
  /\ fst (Workflow.loop
            [stage_at (news_env (response_of 404 [])) 0;
             stage_at (news_env (response_of 404 [])) 1]
            (VStr (lit "A topic")) store_with_retrieval_agent)
     = Ok (VList [])
  /\ exists r s',
       main (news_env (response_of 404 [])) (VStr (lit "news-key")) (start world0)
       = (r, s')
       /\ model_calls (world s') = model_calls world0.
Proof.
  destruct (RetrievalAgent_absorbs_refusal (news_env (response_of 404 [])))
    as (Hact & Hloop & _ & Hmain).
  split; [|split].
  - destruct (Hact (retriever VNone (VStr (lit "AI in Healthcare"))) world0
                (response_of 404 []) eq_refl) as (w1 & H1 & _); [discriminate|].
    now exists w1.
  - rewrite (Hloop 0%nat _ [stage_at (news_env (response_of 404 [])) 1]
               (VStr (lit "A topic")) store_with_retrieval_agent
               (response_of 404 []) eq_refl eq_refl); [reflexivity|discriminate].
  - destruct (Hmain (VStr (lit "news-key")) world0 (response_of 404 []) eq_refl)
      as (r & s' & Hm & Hcalls & _); [discriminate|].
    now exists r, s'.
Defined.

(** C4, as stated, fails: an exception raised by the query is not caught
    by the retrieval agent; [act] raises it instead of returning the empty
    collection. *)
Lemma RetrievalAgent_exception_not_absorbed :
  answer quiet_env (retriever VNone (VStr (lit "AI in Healthcare"))) world0
  = Err connection_error
  /\ fst (RetrievalAgent.act quiet_env
            (retriever VNone (VStr (lit "AI in Healthcare"))) world0)
     = Err connection_error
  /\ fst (RetrievalAgent.act quiet_env
            (retriever VNone (VStr (lit "AI in Healthcare"))) world0)
     <> Ok (VList []).
Proof. repeat split; try reflexivity; discriminate. Qed.

(** ** Which failures stop the run *)

Lemma FileStorageAgent_act_open_raises env self w e :
  open_w env (trace w) FileStorageAgent.path = Some e ->
  FileStorageAgent.act env self w = (Err e, log (EOpen FileStorageAgent.path) w).
Proof. intros Ho. now rewrite FileStorageAgent_act_eq, Ho. Qed.

Lemma trace_opened w :
  trace (opened w) = trace w ++ [EOpen FileStorageAgent.path].
Proof. reflexivity. Qed.

(** A write that raises, at any position: [act] raises, with the exception
    of the write unless the close raises one of its own; the summaries after
    it are not written and no message is printed. *)
Lemma FileStorageAgent_act_write_raises env name before s after w e :
  open_w env (trace w) FileStorageAgent.path = None ->
  writes_work env (opened w) before ->
  file_write env (trace (after_writes before (opened w))) FileStorageAgent.path
    (s ++ [LF; LF]) = Some e ->
  exists e' w',
    FileStorageAgent.act env (storer name (before ++ s :: after)) w = (Err e', w')
    /\ (e' = e
        \/ file_close env (trace (after_writes (before ++ [s]) (opened w)))
             FileStorageAgent.path = Some e')
    /\ trace w'
       = trace w ++ EOpen FileStorageAgent.path :: write_calls (before ++ [s])
    /\ stdout w' = stdout w.
Proof.
  intros Ho Hw Hs. rewrite FileStorageAgent_act_eq, Ho.
  unfold storer. cbn [FileStorageAgent.summaries py_iter].
  unfold bind at 1, lift at 1.
  rewrite (write_all_raises env before s after e _ _ Hw Hs).
  assert (Hlast : log (EWrite FileStorageAgent.path (s ++ [LF; LF]))
                    (after_writes before (opened w))
                  = after_writes (before ++ [s]) (opened w)).
  { unfold after_writes, write_calls. now rewrite map_app, fold_left_app. }
  rewrite Hlast.
  destruct (after_writes_keeps (before ++ [s]) (opened w)) as (Ht & _ & _ & Hout).
  assert (Hopened : stdout (opened w) = stdout w).
  { unfold opened, stdout, set_file, log. cbn [trace]. rewrite omap_app. cbn.
    now rewrite app_nil_r. }
  unfold close.
  destruct (file_close env (trace (after_writes (before ++ [s]) (opened w)))
              FileStorageAgent.path) as [e'|] eqn:Hc.
  - exists e'. eexists. split; [reflexivity|]. split; [now right|].
    cbn [set_file trace]. rewrite Ht, trace_opened, <- app_assoc.
    split; [reflexivity|].
    unfold stdout in *. cbn [set_file trace]. congruence.
  - exists e. eexists. split; [reflexivity|]. split; [now left|].
    cbn [set_file trace]. rewrite Ht, trace_opened, <- app_assoc.
    split; [reflexivity|].
    unfold stdout in *. cbn [set_file trace]. congruence.
Qed.

(** A close that raises, after writes that all went through: [act] raises
    that exception and no message is printed. *)
Lemma FileStorageAgent_act_close_raises env name summaries w e :
  summaries <> [] ->
  open_w env (trace w) FileStorageAgent.path = None ->
  writes_work env (opened w) summaries ->
  file_close env (trace (after_writes summaries (opened w))) FileStorageAgent.path
  = Some e ->
  exists w',
    FileStorageAgent.act env (storer name summaries) w = (Err e, w')
    /\ trace w' = trace w ++ EOpen FileStorageAgent.path :: write_calls summaries
    /\ stdout w' = stdout w.
Proof.
  intros Hne Ho Hw Hc. rewrite FileStorageAgent_act_eq, Ho.
  unfold storer. cbn [FileStorageAgent.summaries py_iter].
  unfold bind at 1, lift at 1.
  rewrite (write_all_works env summaries _ [] Hw). cbn [app].
  destruct (after_writes_keeps summaries (opened w)) as (Ht & _ & _ & Hout).
  assert (Hopened : stdout (opened w) = stdout w).
  { unfold opened, stdout, set_file, log. cbn [trace]. rewrite omap_app. cbn.
    now rewrite app_nil_r. }
  unfold close. destruct (entries summaries) as [|c pending] eqn:He.
  - destruct summaries as [|s0 summaries0]; [now destruct Hne|].
    rewrite entries_cons in He. destruct s0; discriminate He.
  - rewrite Hc. eexists. split; [reflexivity|].
    cbn [set_file trace]. rewrite Ht, trace_opened, <- app_assoc.
    split; [reflexivity|].
    unfold stdout in *. cbn [set_file trace]. congruence.
Qed.

(** An exception of [act] ends the run of a workflow: it is the outcome of
    [Workflow.run], no agent after it is called and the notice of completion
    is not printed. *)
Lemma run_stage_at_raises env l o o' rest input_data s e w' :
  heap s !! l = Some o ->
  object_perceive o input_data = Ok o' ->
  object_act env o' (world s) = (Err e, w') ->
  Workflow.run (stage_at env l :: rest) input_data s
  = (Err e, {| heap := <[l := o']> (heap s); world := w' |}).
Proof.
  intros Hl Hp Ha. unfold Workflow.run. apply bind_err.
  now rewrite (loop_stage_at env l o o' rest input_data s Hl Hp), Ha.
Qed.

(** C8 (as amended): a failure to open the output file, to write to it (at
    any position in the sequence of summaries) or to close it is not caught
    by the storage agent: [act] raises, the summaries after a failed write
    are not written, no message is printed, and [act] returns only when
    opening, every write and the close went through; an exception of [act]
    is the outcome of the run of the workflow, whose later agents are not
    called.  The other agents absorb failures of their own: [act] of the
    input agent raises nothing, [act] of the summarization agent raises
    nothing on article records whatever the completion calls do, and [act]
    of the retrieval agent raises nothing on a response whose status is not
    200. *)
Theorem failures_by_stage env :
  (forall self w e,
      open_w env (trace w) FileStorageAgent.path = Some e ->
      FileStorageAgent.act env self w
      = (Err e, log (EOpen FileStorageAgent.path) w))
  /\ (forall name before s after w e,
        open_w env (trace w) FileStorageAgent.path = None ->
        writes_work env (opened w) before ->
        file_write env (trace (after_writes before (opened w)))
          FileStorageAgent.path (s ++ [LF; LF]) = Some e ->
        exists e' w',
          FileStorageAgent.act env (storer name (before ++ s :: after)) w
          = (Err e', w')
          /\ (e' = e
              \/ file_close env (trace (after_writes (before ++ [s]) (opened w)))
                   FileStorageAgent.path = Some e')
          /\ trace w'
             = trace w
               ++ EOpen FileStorageAgent.path :: write_calls (before ++ [s])
          /\ stdout w' = stdout w)
  /\ (forall name summaries w e,
        summaries <> [] ->
        open_w env (trace w) FileStorageAgent.path = None ->
        writes_work env (opened w) summaries ->
        file_close env (trace (after_writes summaries (opened w)))
          FileStorageAgent.path = Some e ->
        exists w',
          FileStorageAgent.act env (storer name summaries) w = (Err e, w')
          /\ stdout w' = stdout w)
  /\ (forall name summaries w r w',
        FileStorageAgent.act env (storer name summaries) w = (Ok r, w') ->
        open_w env (trace w) FileStorageAgent.path = None
        /\ writes_work env (opened w) summaries
        /\ (summaries = []
            \/ file_close env (trace (after_writes summaries (opened w)))
                 FileStorageAgent.path = None))
  /\ (forall l a rest input_data s e w',
        heap s !! l = Some (OFileStorageAgent a) ->
        FileStorageAgent.act env (storing a input_data) (world s) = (Err e, w') ->
        Workflow.run (stage_at env l :: rest) input_data s
        = (Err e,
           {| heap := <[l := OFileStorageAgent (storing a input_data)]> (heap s);
              world := w' |}))
  /\ (forall self w,
        fst (InputAgent.act env self w) = Ok (InputAgent.topic self))
  /\ (forall name articles w,
        is_ok (fst (SummarizationAgent.act env (summarizer name articles) w))
        = true)
  /\ (forall self w resp,
        answer env self w = Ok resp -> status_code resp <> 200 ->
        fst (RetrievalAgent.act env self w) = Ok (VList [])).
Proof.
  repeat apply conj.
  - apply FileStorageAgent_act_open_raises.
  - apply FileStorageAgent_act_write_raises.
  - intros name summaries w e Hne Ho Hw Hc.
    destruct (FileStorageAgent_act_close_raises env name summaries w e Hne Ho Hw Hc)
      as (w' & Hact & _ & Hout).
    now exists w'.
  - intros name summaries w r w' Hact.
    now apply FileStorageAgent_act_ok_inv in Hact as (_ & _ & Ho & Hw & Hc).
  - intros l a rest v s e w' Hl Hact.
    now apply (run_stage_at_raises env l (OFileStorageAgent a)
                 (OFileStorageAgent (storing a v)) rest v s e w' Hl).
  - intros self w. now rewrite InputAgent_act_eq.
  - intros name articles w.
    destruct (SummarizationAgent_act_records env name articles w)
      as (ss & w1 & w2 & _ & _ & Hact & _).
    now rewrite Hact.
  - intros self w resp Ha Hs.
    now rewrite (RetrievalAgent_act_not_200 env self w resp Ha Hs).
Qed.

(** C8 on an output file that cannot be opened in the script, on a second
    write that raises, on a close that raises, and on a storage agent whose
    failure ends a workflow before the agent after it. *)
Lemma failures_by_stage_witness :
  fst (main locked_env (VStr (lit "news-key")) (start world0))
  = Err permission_error
  /\ fst (FileStorageAgent.act second_write_fails_env
            (storer VNone ([lit "One."] ++ lit "Two." :: [lit "Three."]))
            world0)
     = Err no_space_left
  /\ fst (FileStorageAgent.act close_fails_env (storer VNone [lit "One."]) world0)
     = Err no_space_left
  /\ fst (Workflow.run
            (stage_at second_write_fails_env 0
               :: [stage_at second_write_fails_env 0])
            (VList [VStr (lit "One."); VStr (lit "Two.")])
            store_with_storage_agent)
     = Err no_space_left.
Proof.
  destruct (failures_by_stage second_write_fails_env)
    as (_ & Hwrite & _ & _ & Hrun & _).
  destruct (failures_by_stage close_fails_env) as (_ & _ & Hclose & _).
  assert (Hfirst : writes_work second_write_fails_env (opened world0) [lit "One."]).
  { intros [|k] x Hk; [reflexivity|discriminate Hk]. }
  assert (Hall : writes_work close_fails_env (opened world0) [lit "One."]).
  { intros [|k] x Hk; [reflexivity|discriminate Hk]. }
  split; [reflexivity|]. split; [|split].
  - destruct (Hwrite VNone [lit "One."] (lit "Two.") [lit "Three."] world0
                no_space_left eq_refl Hfirst eq_refl)
      as (e' & w' & Hact & Hwhich & _).
    rewrite Hact. destruct Hwhich as [->|Hc]; [reflexivity|discriminate Hc].
  - destruct (Hclose VNone [lit "One."] world0 no_space_left)
      as (w' & Hact & _); [discriminate|reflexivity|exact Hall|reflexivity|].
    now rewrite Hact.
  - now rewrite (Hrun 0%nat (FileStorageAgent.__init__ (VStr (lit "FileStorageAgent")))
                   [stage_at second_write_fails_env 0]
                   (VList [VStr (lit "One."); VStr (lit "Two.")])
                   store_with_storage_agent no_space_left _ eq_refl eq_refl).
Defined.

(** C8, as stated, fails: storage is not the only agent whose failure stops
    the run.  With storage that never fails, an exception raised by the
    query of the retrieval agent ends the run of the script, before any
    summary and with nothing written. *)
Lemma retrieval_exception_stops_the_run :
  storage_never_fails quiet_env
  /\ fst (main quiet_env (VStr (lit "news-key")) (start world0))
     = Err connection_error
  /\ stdout (world (snd (main quiet_env (VStr (lit "news-key")) (start world0))))
     = [lit "Proceeding with research on: AI in Healthcare"]
  /\ files (world (snd (main quiet_env (VStr (lit "news-key")) (start world0))))
     = ∅.
Proof.
  split; [split; [|split]; intros; reflexivity|].
  repeat split; reflexivity.
Qed.

(** ** The credentials *)

Lemma environ_get_falsy environ key :
  truthy (environ_get environ key) = false
  <-> environ !! key = None \/ environ !! key = Some [].
Proof.
  unfold environ_get. destruct (environ !! key) as [[|c v]|]; cbn.
  - split; [now right|reflexivity].
  - split; [discriminate|]. now intros [|].
  - split; [now left|reflexivity].
Qed.

(** C9 (as amended): when [OPENAI_API_KEY] is absent, or set to the empty
    string, the script raises a [ValueError] that names it; when it is set
    and [NEWS_API_KEY] is absent or empty, the script raises a [ValueError]
    that names [NEWS_API_KEY]; in both cases nothing has happened yet (the
    state of the program is the one before: no agent acted and no query was
    sent).  When both are set and not empty, the script goes on to the
    workflow, with the news key. *)
Theorem script_credentials env environ s :
  (environ !! OPENAI_API_KEY = None \/ environ !! OPENAI_API_KEY = Some [] ->
   script env environ s
   = (Err (Exn ValueError
             (lit "The environment variable OPENAI_API_KEY is not set.")), s))
  /\ (truthy (environ_get environ OPENAI_API_KEY) = true ->
      environ !! NEWS_API_KEY = None \/ environ !! NEWS_API_KEY = Some [] ->
      script env environ s
      = (Err (Exn ValueError
                (lit "The environment variable NEWS_API_KEY is not set.")), s))
  /\ (forall openai_key news_key,
        environ !! OPENAI_API_KEY = Some openai_key -> openai_key <> [] ->
        environ !! NEWS_API_KEY = Some news_key -> news_key <> [] ->
        script env environ s
        = main env (VStr news_key) (with_openai_api_key openai_key s)).
Proof.
  unfold script. fold OPENAI_API_KEY NEWS_API_KEY. repeat apply conj.
  - intros Hk. apply environ_get_falsy in Hk. now rewrite Hk.
  - intros Ho Hk. apply environ_get_falsy in Hk. now rewrite Ho, Hk.
  - intros openai_key news_key Ho Hno Hn Hnn.
    unfold environ_get. rewrite Ho, Hn. cbn [truthy].
    rewrite !bool_decide_eq_false_2 by assumption. reflexivity.
Qed.

(** C9 on an environment without variables and on one with both. *)
Lemma script_credentials_witness :
  script quiet_env ∅ (start world0)
  = (Err (Exn ValueError
            (lit "The environment variable OPENAI_API_KEY is not set.")),
     start world0)
  /\ script quiet_env environ_both (start world0)
     = main quiet_env (VStr (lit "news-key"))
         (with_openai_api_key (lit "openai-key") (start world0)).
Proof.
  destruct (script_credentials quiet_env ∅ (start world0)) as (Habsent & _).
  destruct (script_credentials quiet_env environ_both (start world0))
    as (_ & _ & Hboth).
  split.
  - apply Habsent. now left.
  - apply Hboth; [reflexivity|discriminate|reflexivity|discriminate].
Defined.

(** C9, as stated, fails: both variables are set, one of them to the empty
    string, and the script raises instead of going on. *)
Lemma script_rejects_empty_credential :
  is_Some (environ_empty_key !! OPENAI_API_KEY)
  /\ is_Some (environ_empty_key !! NEWS_API_KEY)
  /\ script quiet_env environ_empty_key (start world0)
     = (Err (Exn ValueError
               (lit "The environment variable OPENAI_API_KEY is not set.")),
        start world0).
Proof. repeat split; try reflexivity; eexists; reflexivity. Qed.

(** ** Runs of the program on given worlds *)

Example strip_spaces : strip (lit "  a b " ++ [LF]) = lit "a b".
Proof. reflexivity. Qed.

Example strip_all : strip ([LF; 160%N] ++ lit "  ") = [].
Proof. reflexivity. Qed.

Example str_of_negative : py_str (fun _ => []) (VInt (-12)) = lit "-12".
Proof. reflexivity. Qed.

(** Two articles retrieved and summarized: the output file holds the two
    summaries, each followed by an empty line, and the run completes. *)
Example script_two_articles :
  let env := news_env (response_of 200 [(lit "articles", VList two_articles)]) in
  let '(r, s) := script env environ_both (start world_with_old_file) in
  r = Ok VNone
  /\ file_content FileStorageAgent.path (world s)
     = lit "A summary." ++ [LF; LF] ++ lit "A summary." ++ [LF; LF]
  /\ stdout (world s)
     = [lit "Proceeding with research on: AI in Healthcare";
        lit "Retrieved 2 articles.";
        lit "Summary 1: A summary.";
        lit "Summary 2: A summary.";
        lit "Summaries saved to research_summaries.txt.";
        lit "Workflow completed."]
  /\ length (model_calls (world s)) = 2%nat
  /\ length (http_calls (world s)) = 1%nat.
Proof. vm_compute. repeat split. Qed.

(** Retrieval answered with 404: nothing is summarized and the output file
    is left empty. *)
Example script_not_found :
  let '(r, s) :=
    script (news_env (response_of 404 [])) environ_both
      (start world_with_old_file) in
  r = Ok VNone
  /\ files (world s) !! FileStorageAgent.path = Some []
  /\ model_calls (world s) = [].
Proof. vm_compute. repeat split. Qed.

(** A workflow over the agent at address 0, the base agent at address 1 and
    the agent at address 0 again: the second [perceive] raises and nothing
    is called after it. *)
Example run_stops_at_base_agent :
  let '(r, (s, calls)) :=
    Workflow.run (observed_from 0 (List.map (stage_at quiet_env) [0; 1; 0]%nat))
      (VStr (lit "topic")) (store_with_base_agent, []) in
  r = Err (Exn NotImplementedError (lit "Perceive method must be implemented."))
  /\ calls
     = [CPerceive 0 (VStr (lit "topic")) (Ok tt);
        CAct 0 (Ok (VStr (lit "topic")));
        CPerceive 1 (VStr (lit "topic"))
          (Err (Exn NotImplementedError
                  (lit "Perceive method must be implemented.")))]
  /\ stdout (world s) = [lit "Proceeding with research on: topic"].
Proof. vm_compute. repeat split. Qed.

(** C1 on that workflow. *)
Lemma Workflow_run_in_order_witness :
  exists r s calls,
    Workflow.run (observed_from 0 (List.map (stage_at quiet_env) [0; 1; 0]%nat))
      (VStr (lit "topic")) (store_with_base_agent, [])
    = (r, (s, calls))
    /\ Workflow.run (List.map (stage_at quiet_env) [0; 1; 0]%nat)
         (VStr (lit "topic")) store_with_base_agent
       = (r, s)
    /\ exists r_loop, schedule 0 3 (VStr (lit "topic")) calls r_loop.
Proof.
  destruct (Workflow_run_in_order (List.map (stage_at quiet_env) [0; 1; 0]%nat)
              (VStr (lit "topic")) store_with_base_agent)
    as (r & s & calls & Hobs & Hrun & (r_loop & Hsched & _) & _).
  exists r, s, calls. split; [exact Hobs|]. split; [exact Hrun|].
  exists r_loop. exact Hsched.
Defined.

(** * Further properties *)

(** ** What a computation may do to the outside *)

Section Confined.
Variable allowed : Event -> bool.
Variable R : gmap (list N) (list N) -> gmap (list N) (list N) -> Prop.
Hypothesis R_refl : forall f, R f f.
Hypothesis R_trans : forall f g h, R f g -> R g h -> R f h.

Lemma stays_refl w : stays allowed R w w.
Proof. exists []. rewrite app_nil_r. repeat split. apply R_refl. Qed.

Lemma stays_trans w1 w2 w3 :
  stays allowed R w1 w2 -> stays allowed R w2 w3 -> stays allowed R w1 w3.
Proof.
  intros (e1 & Ht1 & Ha1 & Hk1 & Hf1) (e2 & Ht2 & Ha2 & Hk2 & Hf2).
  exists (e1 ++ e2). rewrite Ht2, Ht1, <- app_assoc, forallb_app, Ha1, Ha2.
  repeat split; [congruence|eauto].
Qed.

Lemma stays_log e w : allowed e = true -> stays allowed R w (log e w).
Proof.
  intros He. exists [e]. cbn. rewrite He. repeat split. apply R_refl.
Qed.

Lemma confined_ret {A} (a : A) : confined allowed R (ret a).
Proof. intros w. apply stays_refl. Qed.

Lemma confined_raise {A} e : confined allowed R (@raise World A e).
Proof. intros w. apply stays_refl. Qed.

Lemma confined_lift {A} (r : Result A) : confined allowed R (lift r).
Proof. intros w. apply stays_refl. Qed.

Lemma confined_bind {A B} (m : M World A) (k : A -> M World B) :
  confined allowed R m -> (forall a, confined allowed R (k a)) ->
  confined allowed R (bind m k).
Proof.
  intros Hm Hk w. unfold bind. specialize (Hm w).
  destruct (m w) as [[a|e] w1]; [|exact Hm].
  eapply stays_trans; [exact Hm|apply Hk].
Qed.

Lemma confined_try_except {A} (m : M World A) (h : exn -> M World A) :
  confined allowed R m -> (forall e, confined allowed R (h e)) ->
  confined allowed R (try_except m h).
Proof.
  intros Hm Hh w. unfold try_except. specialize (Hm w).
  destruct (m w) as [[a|e] w1]; [exact Hm|].
  eapply stays_trans; [exact Hm|apply Hh].
Qed.

Lemma confined_print line :
  allowed (EPrint line) = true -> confined allowed R (print line).
Proof. intros Ha w. now apply stays_log. Qed.

End Confined.

Lemma stays_weaken (allowed allowed' : Event -> bool) R (R' : _ -> _ -> Prop) w w' :
  (forall e, allowed e = true -> allowed' e = true) ->
  (forall f g, R f g -> R' f g) ->
  stays allowed R w w' -> stays allowed' R' w w'.
Proof.
  intros Ha HR (events & Ht & Hall & Hk & Hf).
  exists events. repeat split; try assumption; [|now apply HR].
  rewrite forallb_forall in *. intros e He. apply Ha, Hall, He.
Qed.

Lemma same_other_files_refl f : same_other_files f f.
Proof. now intros p _. Qed.

Lemma same_other_files_trans f g h :
  same_other_files f g -> same_other_files g h -> same_other_files f h.
Proof. intros H1 H2 p Hp. now rewrite H2, H1. Qed.

(** ** What each agent may do to the outside *)

Lemma InputAgent_act_confined env self :
  confined is_print eq (InputAgent.act env self).
Proof.
  unfold InputAgent.act.
  apply confined_bind; try congruence; [now apply confined_print|].
  intros _. now apply confined_ret.
Qed.

Lemma http_get_confined env url q key :
  confined print_or_query eq (http_get env url q key).
Proof. intros w. unfold http_get. cbn [snd]. now apply stays_log. Qed.

Lemma RetrievalAgent_act_confined env self :
  confined print_or_query eq (RetrievalAgent.act env self).
Proof.
  unfold RetrievalAgent.act, RetrievalAgent.decide.
  repeat first
    [ apply confined_bind; try congruence; [|intros ?]
    | apply http_get_confined
    | now apply confined_ret
    | now apply confined_lift
    | now apply confined_print
    | match goal with |- context [if ?b then _ else _] => destruct b end ].
Qed.

Lemma completion_text_confined env prompt :
  confined print_or_completion eq
    (completion_text env (lit "text-davinci-003") prompt 100).
Proof. intros w. unfold completion_text. cbn [snd]. now apply stays_log. Qed.

Lemma summarize_confined env todo :
  forall acc, confined print_or_completion eq (SummarizationAgent.summarize env todo acc).
Proof.
  induction todo as [|article todo IH]; intros acc; cbn [SummarizationAgent.summarize].
  - now apply confined_ret.
  - apply confined_bind; try congruence; [now apply confined_lift|].
    intros content. destruct (negb (truthy content)); [apply IH|].
    apply confined_bind; try congruence; [|intros ?; apply IH].
    apply confined_try_except; try congruence.
    + apply confined_bind; try congruence; [apply completion_text_confined|].
      intros ?. now apply confined_ret.
    + intros e. apply confined_bind; try congruence; [now apply confined_print|].
      intros _. now apply confined_ret.
Qed.

Lemma print_summaries_confined env summaries :
  forall idx,
    confined print_or_completion eq
      (SummarizationAgent.print_summaries env idx summaries).
Proof.
  induction summaries as [|s summaries IH]; intros idx;
    cbn [SummarizationAgent.print_summaries].
  - now apply confined_ret.
  - apply confined_bind; try congruence; [now apply confined_print|].
    intros _. apply IH.
Qed.

Lemma SummarizationAgent_act_confined env self :
  confined print_or_completion eq (SummarizationAgent.act env self).
Proof.
  unfold SummarizationAgent.act, SummarizationAgent.decide.
  apply confined_bind; try congruence.
  - apply confined_bind; try congruence; [now apply confined_lift|].
    intros todo. apply summarize_confined.
  - intros summaries. apply confined_bind; try congruence.
    + apply print_summaries_confined.
    + intros _. now apply confined_ret.
Qed.

Lemma same_other_files_set_file data w :
  same_other_files (files w) (files (set_file FileStorageAgent.path data w)).
Proof. intros p Hp. unfold set_file. cbn [files]. now rewrite lookup_insert_ne. Qed.

Lemma stays_set_file allowed data w :
  stays allowed same_other_files w (set_file FileStorageAgent.path data w).
Proof.
  exists []. cbn [set_file trace openai_api_key]. rewrite app_nil_r.
  repeat split. apply same_other_files_set_file.
Qed.

Lemma open_for_writing_confined env :
  confined print_or_output same_other_files
    (open_for_writing env FileStorageAgent.path).
Proof.
  intros w. unfold open_for_writing.
  destruct (open_w env (trace w) FileStorageAgent.path); cbn [snd].
  - apply stays_log; [apply same_other_files_refl|reflexivity].
  - eapply stays_trans; [apply same_other_files_trans| |apply stays_set_file].
    apply stays_log; [apply same_other_files_refl|reflexivity].
Qed.

(** The loop of writes only adds calls of [write] on the output file. *)
Lemma write_all_stays env todo :
  forall w buf,
    stays print_or_output same_other_files w
      (fst (snd (FileStorageAgent.write_all env todo (w, buf)))).
Proof.
  induction todo as [|s todo IH]; intros w buf;
    cbn [FileStorageAgent.write_all].
  - apply stays_refl, same_other_files_refl.
  - unfold bind at 1, lift at 1.
    destruct (py_add_str s [LF; LF]) as [data|e];
      [|apply stays_refl, same_other_files_refl].
    unfold bind at 1, write at 1. cbn [fst snd].
    destruct (file_write env (trace w) FileStorageAgent.path data).
    + apply stays_log; [apply same_other_files_refl|].
      unfold print_or_output. cbn. now rewrite bool_decide_eq_true_2.
    + eapply stays_trans; [apply same_other_files_trans| |apply IH].
      apply stays_log; [apply same_other_files_refl|].
      unfold print_or_output. cbn. now rewrite bool_decide_eq_true_2.
Qed.

Lemma close_stays env buf w :
  stays print_or_output same_other_files w
    (snd (close env FileStorageAgent.path buf w)).
Proof.
  unfold close.
  destruct buf as [[|c pending]|];
    [apply stays_refl, same_other_files_refl| |];
    destruct (file_close env (trace w) FileStorageAgent.path);
    apply stays_set_file.
Qed.

Lemma with_file_confined {A} env (body : M (World * buffer) A) :
  (forall w buf, stays print_or_output same_other_files w (fst (snd (body (w, buf))))) ->
  confined print_or_output same_other_files
    (with_file env FileStorageAgent.path body).
Proof.
  intros Hbody w. unfold with_file. specialize (Hbody w (Buffered [])).
  destruct (body (w, Buffered [])) as [r [w1 buf]]. cbn [fst snd] in Hbody.
  pose proof (close_stays env buf w1) as Hc.
  destruct (close env FileStorageAgent.path buf w1) as [[u|e] w2];
    cbn [snd] in *;
    (eapply stays_trans; [apply same_other_files_trans|exact Hbody|exact Hc]).
Qed.

Lemma FileStorageAgent_act_confined env self :
  confined print_or_output same_other_files (FileStorageAgent.act env self).
Proof.
  pose proof same_other_files_refl. pose proof same_other_files_trans.
  unfold FileStorageAgent.act.
  apply confined_bind; try assumption; [apply open_for_writing_confined|].
  intros _. apply confined_bind; try assumption.
  - apply with_file_confined. intros w buf. unfold bind at 1, lift at 1.
    destruct (py_iter (FileStorageAgent.summaries self)) as [todo|e];
      [apply write_all_stays|now apply stays_refl].
  - intros _. apply confined_bind; try assumption; [now apply confined_print|].
    intros _. now apply confined_ret.
Qed.

Lemma http_calls_log e w :
  http_calls (log e w) = http_calls w ++ (if is_query e then [e] else []).
Proof.
  unfold http_calls, log. cbn [trace]. rewrite List.filter_app. cbn.
  now destruct e.
Qed.

Lemma stays_http_calls allowed R w w' :
  (forall e, allowed e = true -> is_query e = false) ->
  stays allowed R w w' -> http_calls w' = http_calls w.
Proof.
  intros Ha (events & Ht & Hall & _). unfold http_calls. rewrite Ht, List.filter_app.
  rewrite forallb_forall in Hall.
  assert (Hnone : List.filter
            (fun e => match e with EHttpGet _ _ _ => true | _ => false end) events = []).
  { clear Ht. induction events as [|e events IH]; [reflexivity|].
    cbn. pose proof (Ha e (Hall e (or_introl eq_refl))) as He.
    destruct e; try discriminate He; apply IH; intros x Hx; apply Hall; now right. }
  now rewrite Hnone, app_nil_r.
Qed.

Lemma stays_model_calls allowed R w w' :
  (forall e, allowed e = true -> is_completion e = false) ->
  (forall e, allowed e = true -> match e with ECompletion _ _ _ => false | _ => true end = true) ->
  stays allowed R w w' -> model_calls w' = model_calls w.
Proof.
  intros _ Ha (events & Ht & Hall & _). unfold model_calls. rewrite Ht, omap_app.
  rewrite forallb_forall in Hall.
  assert (Hnone : omap (fun e => match e with ECompletion _ p _ => Some p | _ => None end)
                    events = []).
  { clear Ht. induction events as [|e events IH]; [reflexivity|].
    cbn. pose proof (Ha e (Hall e (or_introl eq_refl))) as He.
    destruct e; try discriminate He; apply IH; intros x Hx; apply Hall; now right. }
  now rewrite Hnone, app_nil_r.
Qed.

(** The events of a list that passes [forallb], one by one. *)
Lemma forallb_Forall {A} (f : A -> bool) (P : A -> Prop) l :
  (forall x, f x = true -> P x) -> forallb f l = true -> Forall P l.
Proof.
  intros HfP Hl. rewrite forallb_forall in Hl. apply List.Forall_forall.
  intros x Hx. apply HfP, Hl, Hx.
Qed.

(** The trace of [act]: the query, then at most one notice. *)
Lemma RetrievalAgent_act_trace env self w :
  exists notices,
    trace (snd (RetrievalAgent.act env self w))
    = trace (queried self w) ++ notices
    /\ (notices = [] \/ exists line, notices = [EPrint line])
    /\ files (snd (RetrievalAgent.act env self w)) = files w
    /\ openai_api_key (snd (RetrievalAgent.act env self w)) = openai_api_key w.
Proof.
  destruct (RetrievalAgent.act env self w) as [r w'] eqn:H. cbn [snd].
  unfold RetrievalAgent.act in H. unfold bind at 1 in H.
  rewrite RetrievalAgent_decide_eq in H.
  assert (Hnone : forall (e : exn), (Err e, queried self w) = (r, w') ->
            exists notices,
              trace w' = trace (queried self w) ++ notices
              /\ (notices = [] \/ exists line, notices = [EPrint line])
              /\ files w' = files w /\ openai_api_key w' = openai_api_key w).
  { intros e [= <- <-]. exists []. rewrite app_nil_r. repeat split. now left. }
  destruct (answer env self w) as [resp|e]; [|now apply (Hnone e)].
  destruct (status_code resp =? 200).
  - unfold bind, lift, print in H.
    destruct (json resp) as [body|e]; [|now apply (Hnone e)].
    destruct (py_get body (lit "articles") (VList [])) as [articles|e];
      [|now apply (Hnone e)].
    destruct (py_len articles) as [n|e]; [|now apply (Hnone e)].
    injection H as <- <-. eexists [_]. repeat split. right. eexists. reflexivity.
  - unfold bind, print in H. injection H as <- <-.
    eexists [_]. repeat split. right. eexists. reflexivity.
Qed.

(** X1: whatever the endpoint answers (a response of any status, a body of
    any shape, an exception), [act] of the retrieval agent sends exactly one
    query, first, with the url, the perceived topic and the key of the
    agent; after it, it prints at most one notice; it calls no completion
    and changes no file. *)
Theorem RetrievalAgent_act_one_query env self w :
  exists notices,
    trace (snd (RetrievalAgent.act env self w))
    = trace w
      ++ EHttpGet (RetrievalAgent.api_url self) (RetrievalAgent.topic self)
           (RetrievalAgent.api_key self) :: notices
    /\ (notices = [] \/ exists line, notices = [EPrint line])
    /\ http_calls (snd (RetrievalAgent.act env self w))
       = http_calls w
         ++ [EHttpGet (RetrievalAgent.api_url self) (RetrievalAgent.topic self)
               (RetrievalAgent.api_key self)]
    /\ model_calls (snd (RetrievalAgent.act env self w)) = model_calls w
    /\ files (snd (RetrievalAgent.act env self w)) = files w.
Proof.
  destruct (RetrievalAgent_act_trace env self w) as (notices & Ht & Hn & Hf & _).
  exists notices. unfold queried in Ht. cbn [log trace] in Ht.
  rewrite <- app_assoc in Ht. cbn [app] in Ht.
  split; [exact Ht|]. split; [exact Hn|]. split; [|split; [|exact Hf]].
  - unfold http_calls. rewrite Ht, List.filter_app. cbn.
    destruct Hn as [->|[line ->]]; reflexivity.
  - unfold model_calls. rewrite Ht, omap_app. cbn.
    destruct Hn as [->|[line ->]]; cbn; now rewrite app_nil_r.
Qed.

(** X2: whatever it perceived and whatever the completions do, [act] of the
    summarization agent only prints and calls the completion service, each
    call with the model "text-davinci-003" and 100 tokens at most; it sends
    no query and changes no file. *)
Theorem SummarizationAgent_act_footprint env self w :
  exists events,
    trace (snd (SummarizationAgent.act env self w)) = trace w ++ events
    /\ Forall (fun e =>
                 (exists line, e = EPrint line)
                 \/ exists prompt, e = ECompletion (lit "text-davinci-003") prompt 100)
         events
    /\ files (snd (SummarizationAgent.act env self w)) = files w
    /\ http_calls (snd (SummarizationAgent.act env self w)) = http_calls w.
Proof.
  pose proof (SummarizationAgent_act_confined env self w) as Hs.
  pose proof Hs as (events & Ht & Hall & _ & Hf).
  exists events. split; [exact Ht|]. split; [|split].
  - revert Hall. apply forallb_Forall. intros [line| | m p t| |] He; try discriminate He.
    + left. now exists line.
    + right. exists p. cbn in He. apply andb_prop in He as [Hm Htok].
      apply bool_decide_eq_true in Hm. apply Z.eqb_eq in Htok. now subst.
  - symmetry. exact Hf.
  - revert Hs. apply stays_http_calls. now intros [].
Qed.

(** X3: whatever it perceived and whatever the file system does, [act] of
    the storage agent only prints, opens "research_summaries.txt" and writes
    to it: every other file is as before, and no query or completion call is
    made. *)
Theorem FileStorageAgent_act_footprint env self w :
  exists events,
    trace (snd (FileStorageAgent.act env self w)) = trace w ++ events
    /\ Forall (fun e =>
                 (exists line, e = EPrint line)
                 \/ e = EOpen (lit "research_summaries.txt")
                 \/ exists data, e = EWrite (lit "research_summaries.txt") data)
         events
    /\ (forall p, p <> lit "research_summaries.txt" ->
        files (snd (FileStorageAgent.act env self w)) !! p = files w !! p)
    /\ http_calls (snd (FileStorageAgent.act env self w)) = http_calls w
    /\ model_calls (snd (FileStorageAgent.act env self w)) = model_calls w.
Proof.
  pose proof (FileStorageAgent_act_confined env self w) as Hs.
  pose proof Hs as (events & Ht & Hall & _ & Hf).
  exists events. split; [exact Ht|]. split; [|split; [exact Hf|split]].
  - revert Hall. apply forallb_Forall. intros [line| | |p|p d] He; try discriminate He.
    + left. now exists line.
    + right. left. cbn in He. apply bool_decide_eq_true in He. now subst.
    + right. right. cbn in He. apply bool_decide_eq_true in He. subst. now exists d.
  - revert Hs. apply stays_http_calls. now intros [].
  - revert Hs. apply stays_model_calls; now intros [].
Qed.

(** ** What the script does to the outside *)

Lemma main_world env key w :
  world (snd (main env key (start w))) = snd (pipeline env key w).
Proof.
  rewrite <- (main_pipeline env key w). now destruct (main env key (start w)).
Qed.

(** The script sends one query, leaves [openai.api_key] alone and changes
    no file but the output file, whatever the services do. *)
Lemma pipeline_effects env key w r w' :
  pipeline env (VStr key) w = (r, w') ->
  http_calls w' = http_calls w ++ [script_query key]
  /\ openai_api_key w' = openai_api_key w
  /\ same_other_files (files w) (files w').
Proof.
  unfold pipeline.
  rewrite (bind_ok _ _ _ _ _ (InputAgent_act_eq env _ w)).
  cbn [InputAgent.topic].
  set (w0 := log (EPrint _) w).
  assert (H0 : http_calls w0 = http_calls w /\ openai_api_key w0 = openai_api_key w
               /\ files w0 = files w).
  { unfold w0. now rewrite http_calls_log, app_nil_r. }
  destruct H0 as (Hh0 & Hk0 & Hf0).
  set (self := {| RetrievalAgent.name := _; RetrievalAgent.api_url := _;
                  RetrievalAgent.api_key := _; RetrievalAgent.topic := _ |}).
  destruct (RetrievalAgent_act_trace env self w0) as (notices & Ht1 & Hn1 & Hf1 & Hk1).
  unfold bind at 1.
  destruct (RetrievalAgent.act env self w0) as [[articles|e] w1]; cbn [snd] in *.
  all: assert (Hh1 : http_calls w1 = http_calls w ++ [script_query key])
         by (unfold http_calls; rewrite Ht1, List.filter_app;
             fold (http_calls (queried self w0)); unfold queried;
             rewrite http_calls_log, Hh0; cbn [is_query];
             destruct Hn1 as [->|[line ->]]; cbn; now rewrite app_nil_r).
  2:{ intros [= <- <-]. split; [exact Hh1|]. split; [congruence|].
      rewrite Hf1, Hf0. apply same_other_files_refl. }
  set (summarizer0 := {| SummarizationAgent.name := _; SummarizationAgent.articles := _ |}).
  pose proof (SummarizationAgent_act_confined env summarizer0 w1) as Hs2.
  unfold bind at 1.
  destruct (SummarizationAgent.act env summarizer0 w1) as [[summaries|e] w2];
    cbn [snd] in *.
  all: assert (Hh2 : http_calls w2 = http_calls w1)
         by (revert Hs2; apply stays_http_calls; now intros []).
  all: destruct Hs2 as (_ & _ & _ & Hk2 & Hf2).
  2:{ intros [= <- <-]. split; [congruence|]. split; [congruence|].
      rewrite <- Hf2, Hf1, Hf0. apply same_other_files_refl. }
  set (storer0 := {| FileStorageAgent.name := _; FileStorageAgent.summaries := _ |}).
  pose proof (FileStorageAgent_act_confined env storer0 w2) as Hs3.
  unfold bind at 1.
  destruct (FileStorageAgent.act env storer0 w2) as [[message|e] w3];
    cbn [snd] in *.
  all: assert (Hh3 : http_calls w3 = http_calls w2)
         by (revert Hs3; apply stays_http_calls; now intros []).
  all: destruct Hs3 as (_ & _ & _ & Hk3 & Hf3).
  all: rewrite <- Hf2, Hf1, Hf0 in Hf3.
  2:{ intros [= <- <-]. split; [congruence|]. split; [congruence|exact Hf3]. }
  unfold bind, print, ret. intros [= <- <-]. unfold emit, World_console.
  rewrite http_calls_log, app_nil_r. cbn [log openai_api_key files].
  split; [congruence|]. split; [congruence|exact Hf3].
Qed.

(** X4: with both credentials set and not empty, the script, whatever the
    services and the file system do, sends exactly one query, to the news
    url, for the topic "AI in Healthcare" and with the news key; sets
    [openai.api_key] to the other credential; and changes no file other than
    the output file. *)
Theorem script_effects env environ openai_key news_key w :
  environ !! OPENAI_API_KEY = Some openai_key -> openai_key <> [] ->
  environ !! NEWS_API_KEY = Some news_key -> news_key <> [] ->
  http_calls (world (snd (script env environ (start w))))
  = http_calls w
    ++ [EHttpGet (VStr (lit "https://newsapi.org/v2/everything"))
          (VStr (lit "AI in Healthcare")) (VStr news_key)]
  /\ openai_api_key (world (snd (script env environ (start w)))) = VStr openai_key
  /\ (forall p, p <> lit "research_summaries.txt" ->
      files (world (snd (script env environ (start w)))) !! p = files w !! p).
Proof.
  intros Ho Hno Hn Hnn.
  assert (Hs : script env environ (start w)
               = main env (VStr news_key) (start (set_openai_api_key (VStr openai_key) w))).
  { unfold script. fold OPENAI_API_KEY NEWS_API_KEY. unfold environ_get.
    rewrite Ho, Hn. cbn [truthy].
    rewrite !bool_decide_eq_false_2 by assumption. reflexivity. }
  rewrite Hs, main_world.
  destruct (pipeline env (VStr news_key) (set_openai_api_key (VStr openai_key) w))
    as [r w'] eqn:Hp.
  destruct (pipeline_effects env news_key _ r w' Hp) as (Hh & Hk & Hf).
  split; [exact Hh|]. split; [exact Hk|exact Hf].
Qed.

(** X4 on an endpoint that answers with a body that is not JSON. *)
Lemma script_effects_witness :
  http_calls (world (snd (script garbled_env environ_both (start world_with_old_file))))
  = [script_query (lit "news-key")]
  /\ openai_api_key
       (world (snd (script garbled_env environ_both (start world_with_old_file))))
     = VStr (lit "openai-key").
Proof.
  destruct (script_effects garbled_env environ_both (lit "openai-key")
              (lit "news-key") world_with_old_file) as (Hh & Hk & _);
    [reflexivity|discriminate|reflexivity|discriminate|].
  split; [exact Hh|exact Hk].
Defined.

(** ** Workflows, part by part *)

Section WorkflowParts.
Context {W : Type} `{Console W}.

Lemma loop_app (xs ys : list (Stage W)) :
  forall current_data w,
    Workflow.loop (xs ++ ys) current_data w
    = match Workflow.loop xs current_data w with
      | (Ok current_data', w') => Workflow.loop ys current_data' w'
      | (Err e, w') => (Err e, w')
      end.
Proof.
  induction xs as [|x xs IH]; intros v w; [reflexivity|].
  cbn [app Workflow.loop]. unfold bind.
  destruct (perceive x v w) as [[[]|e] w1]; [|reflexivity].
  destruct (act x w1) as [[v1|e] w2]; [apply IH|reflexivity].
Qed.

(** X5: a workflow over two sequences of agents put end to end runs the
    first sequence and then, as a workflow of its own, the second one on the
    data the first produced; when the first sequence raises, the second does
    not run and the exception is the outcome. *)
Theorem Workflow_run_app (xs ys : list (Stage W)) (input_data : value) (w : W) :
  Workflow.run (xs ++ ys) input_data w
  = match Workflow.loop xs input_data w with
    | (Ok current_data, w') => Workflow.run ys current_data w'
    | (Err e, w') => (Err e, w')
    end.
Proof.
  unfold Workflow.run. unfold bind at 1. rewrite loop_app.
  destruct (Workflow.loop xs input_data w) as [[v|e] w1]; reflexivity.
Qed.

End WorkflowParts.

(** ** Agents in a workflow *)

(** X6: an instance of the base class [Agent] cannot take part in a
    workflow: when the run reaches it, [perceive] raises
    [NotImplementedError], nothing of the program or of the outside has
    changed at that point, and no later agent runs; its [decide] and [act]
    raise as well. *)
Theorem base_agent_stops_run env l a rest input_data s :
  heap s !! l = Some (OAgent a) ->
  Workflow.run (stage_at env l :: rest) input_data s
  = (Err (Exn NotImplementedError (lit "Perceive method must be implemented.")), s)
  /\ (forall w, Agent.decide a w
                = (Err (Exn NotImplementedError
                          (lit "Decide method must be implemented.")), w))
  /\ (forall w, Agent.act a w
                = (Err (Exn NotImplementedError
                          (lit "Act method must be implemented.")), w)).
Proof.
  intros Hl. split; [|split; reflexivity].
  unfold Workflow.run. cbn [Workflow.loop]. unfold bind.
  cbn [perceive stage_at]. now rewrite Hl.
Qed.

(** X6 on a program whose second object is a base agent. *)
Lemma base_agent_stops_run_witness :
  Workflow.run (stage_at quiet_env 1 :: [stage_at quiet_env 0]) (VStr (lit "topic"))
    store_with_base_agent
  = (Err (Exn NotImplementedError (lit "Perceive method must be implemented.")),
     store_with_base_agent).
Proof.
  exact (proj1 (base_agent_stops_run quiet_env 1
                  (Agent.__init__ (VStr (lit "Agent")))
                  [stage_at quiet_env 0] (VStr (lit "topic"))
                  store_with_base_agent eq_refl)).
Defined.

(** X7: an [InputAgent] in a workflow hands on the data it was given,
    whatever the data is and whatever topic it held before: the rest of the
    workflow runs on the same data, after one notice that shows it, the
    object now holding that data as its topic. *)
Theorem InputAgent_stage_passes_data env l a rest input_data s :
  heap s !! l = Some (OInputAgent a) ->
  Workflow.loop (stage_at env l :: rest) input_data s
  = Workflow.loop rest input_data
      {| heap := <[l := OInputAgent {| InputAgent.name := InputAgent.name a;
                                       InputAgent.topic := input_data |}]> (heap s);
         world := log (EPrint (lit "Proceeding with research on: "
                                 ++ py_str (repr_container env) input_data))
                    (world s) |}.
Proof.
  intros Hl. cbn [Workflow.loop]. unfold bind at 1.
  cbn [perceive stage_at]. rewrite Hl. cbn [object_perceive InputAgent.perceive].
  unfold bind at 1. cbn [act stage_at heap].
  rewrite list_lookup_insert_eq by (eapply lookup_lt_Some; eassumption).
  reflexivity.
Qed.

(** X7 on the first object of a program, for the data [None]. *)
Lemma InputAgent_stage_passes_data_witness :
  fst (Workflow.loop [stage_at quiet_env 0] VNone store_with_base_agent) = Ok VNone.
Proof.
  now rewrite (InputAgent_stage_passes_data quiet_env 0
                 (InputAgent.__init__ (VStr (lit "InputAgent"))) [] VNone
                 store_with_base_agent eq_refl).
Defined.

(** ** Running a workflow again *)

Lemma same_config_refl o : same_config o o.
Proof. destruct o; cbn; auto. Qed.

Lemma object_perceive_same_config o o' input_data :
  same_config o o' ->
  object_perceive o input_data = object_perceive o' input_data.
Proof.
  destruct o as [a|a|a|a|a], o' as [a'|a'|a'|a'|a']; cbn; try contradiction;
    try reflexivity.
  - now intros ->.
  - now intros (-> & -> & ->).
  - now intros ->.
  - now intros ->.
Qed.

Lemma loop_same_config env ls :
  forall input_data h h' w,
    Forall2 same_config h h' ->
    exists r w1 h1 h1',
      Workflow.loop (List.map (stage_at env) ls) input_data {| heap := h; world := w |}
      = (r, {| heap := h1; world := w1 |})
      /\ Workflow.loop (List.map (stage_at env) ls) input_data {| heap := h'; world := w |}
         = (r, {| heap := h1'; world := w1 |})
      /\ Forall2 same_config h1 h1'.
Proof.
  induction ls as [|l ls IH]; intros v h h' w HF.
  - exists (Ok v), w, h, h'. repeat split. exact HF.
  - cbn [List.map Workflow.loop]. unfold bind at 1 3.
    cbn [perceive stage_at heap world].
    destruct (h !! l) as [o|] eqn:Ho.
    + destruct (Forall2_lookup_l _ _ _ _ _ HF Ho) as (o' & Ho' & Hc).
      rewrite Ho', <- (object_perceive_same_config o o' v Hc).
      destruct (object_perceive o v) as [o1|e].
      * unfold bind at 1 2. cbn [act stage_at heap world].
        rewrite !list_lookup_insert_eq by (eapply lookup_lt_Some; eassumption).
        unfold in_world. cbn [heap world].
        destruct (object_act env o1 w) as [[v1|e] w1].
        -- apply IH. apply Forall2_insert; [exact HF|apply same_config_refl].
        -- eexists _, _, _, _. repeat split.
           apply Forall2_insert; [exact HF|apply same_config_refl].
      * eexists _, _, _, _. repeat split. exact HF.
    + assert (Ho' : h' !! l = None).
      { apply lookup_ge_None. rewrite <- (Forall2_length _ _ _ HF).
        now apply lookup_ge_None. }
      rewrite Ho'. eexists _, _, _, _. repeat split. exact HF.
Qed.

(** X8: what the agents perceived in an earlier run has no influence on a
    run: two programs whose objects have the same classes and constructor
    arguments, in the same outside world, give the same outcome of
    [Workflow.run] and leave the same outside world, whatever each object
    held from before. *)
Theorem Workflow_run_forgets_earlier_data env ls input_data h h' w :
  Forall2 same_config h h' ->
  fst (Workflow.run (List.map (stage_at env) ls) input_data {| heap := h; world := w |})
  = fst (Workflow.run (List.map (stage_at env) ls) input_data {| heap := h'; world := w |})
  /\ world (snd (Workflow.run (List.map (stage_at env) ls) input_data
                   {| heap := h; world := w |}))
     = world (snd (Workflow.run (List.map (stage_at env) ls) input_data
                     {| heap := h'; world := w |})).
Proof.
  intros HF.
  destruct (loop_same_config env ls input_data h h' w HF)
    as (r & w1 & h1 & h1' & H1 & H2 & _).
  unfold Workflow.run, bind. rewrite H1, H2.
  destruct r; split; reflexivity.
Qed.

(** X8 on the objects of the script, as constructed and as an earlier run
    left them. *)
Lemma Workflow_run_forgets_earlier_data_witness :
  fst (Workflow.run (List.map (stage_at quiet_env) [0; 1; 2; 3]%nat)
         (VStr (lit "AI in Healthcare"))
         {| heap := heap_after_a_run; world := world0 |})
  = fst (Workflow.run (List.map (stage_at quiet_env) [0; 1; 2; 3]%nat)
           (VStr (lit "AI in Healthcare"))
           {| heap := heap_as_constructed; world := world0 |}).
Proof.
  apply (Workflow_run_forgets_earlier_data quiet_env [0; 1; 2; 3]%nat
           (VStr (lit "AI in Healthcare")) heap_after_a_run heap_as_constructed world0).
  repeat constructor.
Defined.

(** ** The summaries *)

Lemma lstrip_split s :
  exists spaces, s = spaces ++ lstrip s /\ forallb is_space spaces = true.
Proof.
  induction s as [|c s (spaces & Hs & Hall)]; [now exists []|].
  cbn [lstrip]. destruct (is_space c) eqn:Hc.
  - exists (c :: spaces). cbn. rewrite Hc, Hall. split; [congruence|reflexivity].
  - now exists [].
Qed.

Lemma lstrip_head s c rest : lstrip s = c :: rest -> is_space c = false.
Proof.
  induction s as [|x s IH]; [discriminate|].
  cbn [lstrip]. destruct (is_space x) eqn:Hx; [exact IH|].
  now intros [= <- _].
Qed.

Lemma lstrip_fixed s :
  (forall c rest, s = c :: rest -> is_space c = false) -> lstrip s = s.
Proof.
  destruct s as [|c s]; [reflexivity|]. intros H. cbn [lstrip].
  now rewrite (H c s eq_refl).
Qed.

Lemma lstrip_idempotent s : lstrip (lstrip s) = lstrip s.
Proof. apply lstrip_fixed. intros c rest. apply lstrip_head. Qed.

Lemma rstrip_split s :
  exists spaces, s = rstrip s ++ spaces /\ forallb is_space spaces = true.
Proof.
  destruct (lstrip_split (rev s)) as (spaces & Hs & Hall).
  exists (rev spaces). split.
  - unfold rstrip. rewrite <- rev_app_distr, <- Hs. now rewrite rev_involutive.
  - rewrite forallb_forall in *. intros x Hx. apply Hall. now apply in_rev.
Qed.

(** The text [strip] returns starts and ends with a character that is not
    white space, and [strip] leaves it as it is. *)
Lemma strip_no_outer_space s : no_outer_space (strip s) /\ strip (strip s) = strip s.
Proof.
  assert (Hhead : forall c rest, strip s = c :: rest -> is_space c = false).
  { intros c rest Hc. unfold strip in Hc.
    destruct (rstrip_split (lstrip s)) as (spaces & Hs & _).
    rewrite Hc in Hs. cbn in Hs. eapply lstrip_head. exact Hs. }
  assert (Hlast : forall front c, strip s = front ++ [c] -> is_space c = false).
  { intros front c Hc. unfold strip, rstrip in Hc.
    apply (f_equal (@rev N)) in Hc. rewrite rev_involutive, rev_app_distr in Hc.
    cbn in Hc. eapply lstrip_head. exact Hc. }
  split; [now split|].
  assert (Hr : lstrip (rev (strip s)) = rev (strip s)).
  { apply lstrip_fixed. intros c rest Hc. apply (Hlast (rev rest) c).
    rewrite <- (rev_involutive (strip s)), Hc. reflexivity. }
  unfold strip at 1. rewrite (lstrip_fixed (strip s) Hhead).
  unfold rstrip. rewrite Hr. apply rev_involutive.
Qed.

Lemma no_outer_space_strip t : no_outer_space t -> strip t = t.
Proof.
  intros [Hhead Hlast]. unfold strip, rstrip.
  rewrite (lstrip_fixed t Hhead).
  assert (Hr : lstrip (rev t) = rev t).
  { apply lstrip_fixed. intros c rest Hc. apply (Hlast (rev rest) c).
    rewrite <- (rev_involutive t), Hc. reflexivity. }
  rewrite Hr. apply rev_involutive.
Qed.

Lemma placeholders_no_outer_space :
  no_outer_space SummarizationAgent.no_content
  /\ no_outer_space SummarizationAgent.unavailable.
Proof.
  change SummarizationAgent.no_content with (strip SummarizationAgent.no_content).
  change SummarizationAgent.unavailable with (strip SummarizationAgent.unavailable).
  split; apply strip_no_outer_space.
Qed.

(** The summaries of article records are strings without white space
    around them. *)
Lemma summarized_strings env w articles summaries w' :
  summarized env w articles summaries w' ->
  exists strs,
    summaries = List.map VStr strs /\ Forall no_outer_space strs.
Proof.
  induction 1 as [|? ? ? ? ? ? ? (strs & -> & Hall)
                  |? ? ? ? ? text ? ? ? (strs & -> & Hall)
                  |? ? ? ? ? ? ? ? ? (strs & -> & Hall)].
  - now exists [].
  - exists (SummarizationAgent.no_content :: strs). split; [reflexivity|].
    constructor; [apply placeholders_no_outer_space|exact Hall].
  - exists (strip text :: strs). split; [reflexivity|].
    constructor; [apply strip_no_outer_space|exact Hall].
  - exists (SummarizationAgent.unavailable :: strs). split; [reflexivity|].
    constructor; [apply placeholders_no_outer_space|exact Hall].
Qed.

(** X9: on article records, every element [act] of the summarization
    agent returns is a string, and none starts or ends with white space
    (the completions are stripped, and the placeholders have none). *)
Theorem SummarizationAgent_summaries_are_stripped env name articles w :
  exists strs w',
    SummarizationAgent.act env (summarizer name articles) w
    = (Ok (VList (List.map VStr strs)), w')
    /\ length strs = length articles
    /\ Forall no_outer_space strs
    /\ Forall (fun t => strip t = t) strs.
Proof.
  destruct (SummarizationAgent_act_records env name articles w)
    as (ss & w1 & w2 & _ & Hrel & Hact & _).
  destruct (summarized_strings _ _ _ _ _ Hrel) as (strs & -> & Hall).
  exists strs, w2. split; [exact Hact|]. split; [|split; [exact Hall|]].
  - apply summarized_length in Hrel. now rewrite length_map in Hrel.
  - revert Hall. apply List.Forall_impl. apply no_outer_space_strip.
Qed.

(** ** An element that is not an article record *)

Lemma py_get_not_dict v key dflt :
  (forall d, v <> VDict d) ->
  exists e, py_get v key dflt = Err e /\ exn_class_of e = AttributeError.
Proof.
  intros Hv. destruct v; try (eexists; split; reflexivity). now destruct (Hv d).
Qed.

(** X10: an element of the perceived sequence that is not a record (it has
    no [get]) makes [act] of the summarization agent raise an
    [AttributeError]: the failure is outside the [try].  The articles before
    it were summarized (their completion calls were made) and their
    summaries are lost; nothing is called for that element or for the
    articles after it. *)
Theorem SummarizationAgent_non_record_raises env name before v after w :
  (forall d, v <> VDict d) ->
  exists done w1 e,
    summarized env w before done w1
    /\ SummarizationAgent.act env (summarizer_with name before v after) w
       = (Err e, w1)
    /\ exn_class_of e = AttributeError.
Proof.
  intros Hv.
  destruct (summarize_records env before [] w) as (done & w1 & Hb & Hrel).
  destruct (py_get_not_dict v (lit "content") (VStr []) Hv) as (e & Hget & Hclass).
  exists done, w1, e. split; [exact Hrel|]. split; [|exact Hclass].
  unfold SummarizationAgent.act. apply bind_err.
  unfold SummarizationAgent.decide, summarizer_with.
  cbn [SummarizationAgent.articles py_iter]. unfold bind at 1, lift at 1.
  rewrite summarize_app, Hb. cbn [app SummarizationAgent.summarize].
  apply bind_err. unfold lift. now rewrite Hget.
Qed.

(** X10 on a sequence whose second element is [None]. *)
Lemma SummarizationAgent_non_record_raises_witness :
  fst (SummarizationAgent.act quiet_env
         (summarizer_with VNone [article_of (VStr (lit "One."))] VNone
            [article_of (VStr (lit "Two."))]) world0)
  = Err (Exn AttributeError (lit "'NoneType' object has no attribute 'get'"))
  /\ length (model_calls
               (snd (SummarizationAgent.act quiet_env
                       (summarizer_with VNone [article_of (VStr (lit "One."))] VNone
                          [article_of (VStr (lit "Two."))]) world0)))
     = 1%nat.
Proof.
  destruct (SummarizationAgent_non_record_raises quiet_env VNone
              [article_of (VStr (lit "One."))] VNone
              [article_of (VStr (lit "Two."))] world0)
    as (done & w1 & e & _ & Hact & _); [discriminate|].
  split; reflexivity.
Defined.

(** ** The output file when [act] raises *)

Lemma write_all_app env xs ys :
  forall st,
    FileStorageAgent.write_all env (xs ++ ys) st
    = match FileStorageAgent.write_all env xs st with
      | (Ok _, st') => FileStorageAgent.write_all env ys st'
      | (Err e, st') => (Err e, st')
      end.
Proof.
  induction xs as [|x xs IH]; intros st; [reflexivity|].
  cbn [app FileStorageAgent.write_all]. unfold bind, lift.
  destruct (py_add_str x [LF; LF]) as [data|e]; [|reflexivity].
  destruct (write env FileStorageAgent.path data st) as [[[]|e] st1];
    [apply IH|reflexivity].
Qed.

Lemma py_add_str_not_str v b :
  (forall s, v <> VStr s) ->
  exists e, py_add_str v b = Err e /\ exn_class_of e = TypeError.
Proof.
  intros Hv. destruct v; try (eexists; split; reflexivity). now destruct (Hv s).
Qed.

Lemma trace_stored summaries w :
  trace (stored summaries w)
  = trace w ++ EOpen FileStorageAgent.path :: write_calls summaries.
Proof.
  unfold stored, flushed.
  destruct (after_writes_keeps summaries (opened w)) as (Ht & _).
  assert (H : trace (after_writes summaries (opened w))
              = trace w ++ EOpen FileStorageAgent.path :: write_calls summaries).
  { rewrite Ht, trace_opened, <- app_assoc. reflexivity. }
  now destruct (entries summaries).
Qed.

(** X11: the storage agent empties the output file before it looks at what
    it perceived: when the perceived value cannot be iterated ([None], as
    after the constructor, or a number) and the file can be opened, [act]
    raises the [TypeError] of the iteration and leaves the output file
    empty, whatever it held; no message is printed. *)
Theorem FileStorageAgent_act_not_iterable env self w e :
  py_iter (FileStorageAgent.summaries self) = Err e ->
  open_w env (trace w) FileStorageAgent.path = None ->
  FileStorageAgent.act env self w = (Err e, opened w)
  /\ file_content FileStorageAgent.path (opened w) = []
  /\ stdout (opened w) = stdout w.
Proof.
  intros Hi Ho. split; [|split].
  - rewrite FileStorageAgent_act_eq, Ho. unfold bind at 1, lift at 1.
    now rewrite Hi.
  - apply file_content_set_file.
  - unfold opened, stdout, set_file, log. cbn [trace]. rewrite omap_app. cbn.
    now rewrite app_nil_r.
Qed.

(** X11 on an agent that perceived nothing, over a file that held
    something. *)
Lemma FileStorageAgent_act_not_iterable_witness :
  fst (FileStorageAgent.act quiet_env (FileStorageAgent.__init__ VNone)
         world_with_old_file)
  = Err (Exn TypeError (lit "'NoneType' object is not iterable"))
  /\ file_content FileStorageAgent.path world_with_old_file = lit "old contents"
  /\ file_content FileStorageAgent.path
       (snd (FileStorageAgent.act quiet_env (FileStorageAgent.__init__ VNone)
               world_with_old_file))
     = [].
Proof.
  destruct (FileStorageAgent_act_not_iterable quiet_env
              (FileStorageAgent.__init__ VNone) world_with_old_file _
              eq_refl eq_refl) as (Hact & Hc & _).
  rewrite Hact. split; [reflexivity|]. split; [reflexivity|exact Hc].
Defined.

(** X12: an element that is not a string stops the storage agent at that
    element, with the [TypeError] of the concatenation: when, in this run,
    opening the file, the writes of the strings before that element and the
    close go through, the output file holds the entries of those strings and
    nothing of what follows, no write is made for what follows, and no
    message is printed. *)
Theorem FileStorageAgent_act_not_a_string env name before v after w :
  (forall s, v <> VStr s) ->
  storage_works env w before ->
  exists e,
    FileStorageAgent.act env (storer_with name before v after) w
    = (Err e, stored before w)
    /\ exn_class_of e = TypeError
    /\ file_content FileStorageAgent.path (stored before w) = entries before
    /\ trace (stored before w)
       = trace w ++ EOpen FileStorageAgent.path :: write_calls before
    /\ stdout (stored before w) = stdout w.
Proof.
  intros Hv (Ho & Hw & Hc).
  destruct (py_add_str_not_str v [LF; LF] Hv) as (e & Hadd & Hclass).
  exists e. split; [|split; [exact Hclass|split; [|split]]].
  - rewrite FileStorageAgent_act_eq, Ho. unfold storer_with.
    cbn [FileStorageAgent.summaries py_iter]. unfold bind at 1, lift at 1.
    rewrite write_all_app, (write_all_works env before _ [] Hw).
    cbn [app FileStorageAgent.write_all]. unfold bind at 1, lift at 1.
    rewrite Hadd. rewrite close_works; [reflexivity|].
    destruct Hc as [->|Hc]; [now left|now right].
  - unfold file_content. now rewrite files_stored, lookup_insert_eq.
  - apply trace_stored.
  - apply stdout_stored.
Qed.

(** X12 on a sequence whose second element is [None]. *)
Lemma FileStorageAgent_act_not_a_string_witness :
  fst (FileStorageAgent.act quiet_env
         (storer_with VNone [lit "One."] VNone [VStr (lit "Three.")])
         world_with_old_file)
  = Err (Exn TypeError
           (lit "unsupported operand type(s) for +: 'NoneType' and 'str'"))
  /\ file_content FileStorageAgent.path
       (snd (FileStorageAgent.act quiet_env
               (storer_with VNone [lit "One."] VNone [VStr (lit "Three.")])
               world_with_old_file))
     = lit "One." ++ [LF; LF].
Proof.
  destruct (FileStorageAgent_act_not_a_string quiet_env VNone [lit "One."] VNone
              [VStr (lit "Three.")] world_with_old_file)
    as (e & Hact & _ & Hc & _).
  - discriminate.
  - split; [reflexivity|]. split; [intros k x _; reflexivity|now right].
  - split; [reflexivity|]. rewrite Hact. exact Hc.
Defined.

(** ** A response with status 200 that is not what [act] expects *)

(** X14: after a response with status 200, [act] of the retrieval agent
    raises, having printed nothing, when decoding the body raises (the same
    exception), when the body is not an object (an [AttributeError]), and
    when the [articles] field is [null], a number or a boolean (a
    [TypeError], from [len]). *)
Theorem RetrievalAgent_act_malformed env self w resp :
  answer env self w = Ok resp -> status_code resp = 200 ->
  (forall e, json resp = Err e ->
             RetrievalAgent.act env self w = (Err e, queried self w))
  /\ (forall body,
        json resp = Ok body -> (forall d, body <> VDict d) ->
        exists e,
          RetrievalAgent.act env self w = (Err e, queried self w)
          /\ exn_class_of e = AttributeError)
  /\ (forall d v,
        json resp = Ok (VDict d) -> items_find d (lit "articles") = Some v ->
        v = VNone \/ (exists b, v = VBool b) \/ (exists z, v = VInt z) ->
        exists e,
          RetrievalAgent.act env self w = (Err e, queried self w)
          /\ exn_class_of e = TypeError).
Proof.
  intros Ha Hs.
  assert (Hact : RetrievalAgent.act env self w
                 = (body <~ lift (json resp);
                    articles <~ lift (py_get body (lit "articles") (VList []));
                    n <~ lift (py_len articles);
                    print (lit "Retrieved " ++ str_of_nat n ++ lit " articles.");>
                    ret articles) (queried self w)).
  { unfold RetrievalAgent.act.
    erewrite bind_ok by (rewrite RetrievalAgent_decide_eq, Ha; reflexivity).
    now rewrite Hs. }
  rewrite Hact. repeat apply conj.
  - intros e Hj. apply bind_err. unfold lift. now rewrite Hj.
  - intros body Hj Hb.
    destruct (py_get_not_dict body (lit "articles") (VList []) Hb)
      as (e & Hget & Hclass).
    exists e. split; [|exact Hclass].
    unfold bind at 1, lift at 1. rewrite Hj.
    apply bind_err. unfold lift. now rewrite Hget.
  - intros d v Hj Hf Hv.
    assert (Hlen : exists e, py_len v = Err e /\ exn_class_of e = TypeError).
    { destruct Hv as [->|[[b ->]|[z ->]]]; eexists; split; reflexivity. }
    destruct Hlen as (e & Hlen & Hclass). exists e. split; [|exact Hclass].
    unfold bind at 1, lift at 1. rewrite Hj.
    unfold bind at 1, lift at 1. cbn [py_get]. rewrite items_get_find, Hf.
    apply bind_err. unfold lift. cbn [from_option id]. now rewrite Hlen.
Qed.

(** X14 on a body that cannot be decoded, on a body that is a list, and on
    a body whose [articles] field is [null]. *)
Lemma RetrievalAgent_act_malformed_witness :
  fst (RetrievalAgent.act garbled_env (retriever VNone VNone) world0)
  = Err (Exn (OtherError "JSONDecodeError") (lit "Expecting value"))
  /\ fst (RetrievalAgent.act (body_env (VList [])) (retriever VNone VNone) world0)
     = Err (Exn AttributeError (lit "'list' object has no attribute 'get'"))
  /\ fst (RetrievalAgent.act (body_env (VDict [(lit "articles", VNone)]))
            (retriever VNone VNone) world0)
     = Err (Exn TypeError (lit "object of type 'NoneType' has no len()")).
Proof.
  destruct (RetrievalAgent_act_malformed garbled_env (retriever VNone VNone)
              world0 _ eq_refl eq_refl) as (H1 & _ & _).
  split; [now rewrite (H1 _ eq_refl)|]. split; reflexivity.
Defined.

(** ** The notices of the summarization agent *)

Lemma print_summaries_stdout env strs :
  forall idx w,
    stdout (snd (SummarizationAgent.print_summaries env idx (List.map VStr strs) w))
    = stdout w ++ imap (fun i s => summary_line (idx + i) s) strs.
Proof.
  induction strs as [|s strs IH]; intros idx w.
  - cbn. now rewrite app_nil_r.
  - cbn [List.map SummarizationAgent.print_summaries imap].
    unfold bind at 1, print at 1. rewrite IH.
    unfold emit, World_console. rewrite stdout_log, <- app_assoc.
    cbn [app py_str]. unfold summary_line at 2.
    rewrite Nat.add_0_r. do 2 f_equal.
    apply imap_ext. intros i x _. unfold compose. f_equal. lia.
Qed.

(** X15: [act] of the summarization agent prints, after whatever [decide]
    printed, one line per summary, in order, numbered from 1:
    "Summary 1: ...", "Summary 2: ...". *)
Theorem SummarizationAgent_act_numbers_from_one env name articles w :
  exists strs w1 w2,
    SummarizationAgent.decide env (summarizer name articles) w
    = (Ok (List.map VStr strs), w1)
    /\ SummarizationAgent.act env (summarizer name articles) w
       = (Ok (VList (List.map VStr strs)), w2)
    /\ stdout w2
       = stdout w1
         ++ imap (fun i s => lit "Summary " ++ str_of_nat (i + 1) ++ lit ": " ++ s)
              strs.
Proof.
  destruct (summarize_records env articles [] w) as (ss & w1 & Hs & Hrel).
  destruct (summarized_strings _ _ _ _ _ Hrel) as (strs & -> & _).
  cbn [app] in Hs.
  assert (Hd : SummarizationAgent.decide env (summarizer name articles) w
               = (Ok (List.map VStr strs), w1)).
  { unfold SummarizationAgent.decide, summarizer.
    cbn [SummarizationAgent.articles py_iter]. unfold bind, lift. exact Hs. }
  pose proof (print_summaries_stdout env strs 0 w1) as Hp.
  destruct (SummarizationAgent.print_summaries env 0 (List.map VStr strs) w1)
    as [[[]|e] w2] eqn:Hprint.
  - exists strs, w1, w2. split; [exact Hd|]. split.
    + unfold SummarizationAgent.act. rewrite (bind_ok _ _ _ _ _ Hd).
      now rewrite (bind_ok _ _ _ _ _ Hprint).
    + exact Hp.
  - destruct (print_summaries_ok env (List.map VStr strs) 0 w1) as (w' & Hok & _).
    congruence.
Qed.

(** ** From the articles to the output file *)

(** X16: when the query of the script is answered with status 200 and a
    body whose [articles] field is a sequence of records, the summarization
    agent of the script summarizes them, one string per article, each the
    summary [summarized] gives for its article; and when, in the run of the
    storage agent that follows, opening the output file, each write and the
    close go through, the script runs to its end and the output file holds
    exactly these summaries, in order, each followed by an empty line. *)
Theorem main_one_entry_per_article env key w resp body articles :
  answer env (retriever key (VStr (lit "AI in Healthcare"))) (after_input w) = Ok resp ->
  status_code resp = 200 ->
  json resp = Ok (VDict body) ->
  items_find body (lit "articles") = Some (VList (List.map VDict articles)) ->
  exists strs w2 w3,
    summarized env (after_retrieval key (length articles) w) articles
      (List.map VStr strs) w2
    /\ SummarizationAgent.act env
         (summarizer (VStr (lit "SummarizationAgent")) articles)
         (after_retrieval key (length articles) w)
       = (Ok (VList (List.map VStr strs)), w3)
    /\ length strs = length articles
    /\ (storage_works env w3 strs ->
        exists s',
          main env key (start w) = (Ok VNone, s')
          /\ file_content FileStorageAgent.path (world s') = entries strs).
Proof.
  intros Ha Hs Hj Hf.
  pose proof (RetrievalAgent_act_200 env _ _ resp body Ha Hs Hj) as Hr.
  rewrite items_get_find, Hf in Hr. cbn [from_option id py_len] in Hr.
  rewrite length_map in Hr. fold (after_retrieval key (length articles) w) in Hr.
  destruct (SummarizationAgent_act_records env (VStr (lit "SummarizationAgent"))
              articles (after_retrieval key (length articles) w))
    as (ss & w2 & w3 & _ & Hrel & Hact & _).
  destruct (summarized_strings _ _ _ _ _ Hrel) as (strs & -> & _).
  exists strs, w2, w3. split; [exact Hrel|]. split; [exact Hact|]. split.
  { apply summarized_length in Hrel. now rewrite length_map in Hrel. }
  intros Hst.
  pose proof (main_pipeline env key w) as Hm.
  destruct (main env key (start w)) as [r s'].
  unfold pipeline in Hm.
  rewrite (bind_ok _ _ _ _ _ (InputAgent_act_eq env _ w)) in Hm.
  cbn [InputAgent.topic py_str] in Hm.
  change (log (EPrint (lit "Proceeding with research on: "
                         ++ lit "AI in Healthcare")) w)
    with (after_input w) in Hm.
  fold (retriever key (VStr (lit "AI in Healthcare"))) in Hm.
  rewrite (bind_ok _ _ _ _ _ Hr) in Hm.
  unfold summarizer in Hact. rewrite (bind_ok _ _ _ _ _ Hact) in Hm.
  pose proof (FileStorageAgent_act_works env (VStr (lit "FileStorageAgent"))
                strs w3 Hst) as Hstore.
  unfold storer in Hstore. rewrite (bind_ok _ _ _ _ _ Hstore) in Hm.
  unfold bind, print, ret in Hm. injection Hm as -> Hw.
  exists s'. split; [reflexivity|].
  rewrite Hw. unfold emit, World_console, file_content. cbn [log files].
  now rewrite files_stored, lookup_insert_eq.
Qed.

(** X16 on a response with two articles. *)
Lemma main_one_entry_per_article_witness :
  exists strs s',
    main (news_env (response_of 200 [(lit "articles", VList two_articles)]))
      (VStr (lit "news-key")) (start world_with_old_file)
    = (Ok VNone, s')
    /\ length strs = 2%nat
    /\ file_content FileStorageAgent.path (world s') = entries strs.
Proof.
  destruct (main_one_entry_per_article
              (news_env (response_of 200 [(lit "articles", VList two_articles)]))
              (VStr (lit "news-key")) world_with_old_file
              (response_of 200 [(lit "articles", VList two_articles)])
              [(lit "articles", VList two_articles)]
              [article_of (VStr (lit "One.")); article_of (VStr (lit "Two."))])
    as (strs & w2 & w3 & _ & _ & Hl & Hgoes);
    [reflexivity|reflexivity|reflexivity|reflexivity|].
  destruct Hgoes as (s' & Hm & Hc).
  { split; [reflexivity|]. split; [intros k x _; reflexivity|now right]. }
  exists strs, s'. split; [exact Hm|]. split; [exact Hl|exact Hc].
Defined.
